(** * MCP Hub Manager: a model of the desktop shell and its properties

    The development follows the four source files of the shell:
    - [HubClient]  : gui/hub_client.py, the HTTP client;
    - [LogsTab]    : gui/logs_tab.py, the log viewer;
    - [ServersTab] : gui/servers_tab.py, the server roster;
    - [App]        : gui/app.py, the hub life cycle and the polling loop.

    Python code that raises is modelled in an error monad ([Py.result]);
    code that mutates [self] threads the object explicitly, and what the
    operating system, the network or the clock answer is an input of the
    model (an environment function or an event of a transition system). *)

From Stdlib Require Import ZArith Lia Ascii.
From stdpp Require Import gmap strings pretty list fin_maps.

Local Open Scope string_scope.
Local Open Scope list_scope.
Local Open Scope Z_scope.

#[local] Set Warnings "-clear-no-such-hyp".

(** ** Python preliminaries: exceptions and [try]/[except Exception] *)

Module Py.

(** The exception classes the modelled code can meet. [KeyboardInterrupt]
    and [SystemExit] derive from [BaseException] only, so a handler
    written [except Exception] lets them through. *)
Inductive exn : Type :=
| URLError            (* connection refused, DNS failure, reset, ... *)
| SocketTimeout       (* the timeout of urlopen expired *)
| HTTPError (code : Z)
| UnicodeDecodeError
| JSONDecodeError
| ValueError
| AttributeError
| FileNotFoundError
| PermissionError
| TimeoutExpired
| KeyboardInterrupt
| SystemExit.

Definition is_Exception (e : exn) : bool :=
  match e with
  | KeyboardInterrupt | SystemExit => false
  | _ => true
  end.

Inductive result (A : Type) : Type :=
| Return (a : A)
| Raise (e : exn).
Arguments Return {A} a.
Arguments Raise {A} e.

Definition bind {A B} (r : result A) (k : A -> result B) : result B :=
  match r with
  | Return a => k a
  | Raise e => Raise e
  end.

(** [try: body except Exception: handler] *)
Definition try_except {A} (body : result A) (handler : result A) : result A :=
  match body with
  | Return a => Return a
  | Raise e => if is_Exception e then handler else Raise e
  end.

End Py.

Notation "'do' x <- c1 ; c2" := (Py.bind c1 (fun x => c2))
  (at level 10, x name, c1 at level 100, c2 at level 200).

(** ** gui/hub_client.py *)

Module HubClient.
Import Py.

(** Values handled by the [json] module. Python's [None] is the decoding
    of [null], so the absent-result sentinel of the client is [JNull]. *)
#[warnings="-register-all"]
Inductive json : Type :=
| JNull
| JBool (b : bool)
| JNum (z : Z)
| JStr (s : string)
| JArr (l : list json)
| JObj (fields : list (string * json)).

Definition PyNone : json := JNull.

Inductive http_method := GET | POST.

(** What [urllib.request.urlopen] is called with. [req_data] is the value
    given to [json.dumps(...).encode()], kept before serialisation. *)
Record request := {
  req_method  : http_method;
  req_url     : string;
  req_data    : option json;
  req_headers : list (string * string);
  req_timeout : Z
}.

(** What the network answers to one request: no answer at all, or the
    final response (after urllib followed redirects) with its status
    code and its body. *)
Inductive http_outcome :=
| TransportError (e : exn)
| Response (status : Z) (body : string).

Record MCPHubClient := { host : string; port : Z }.

(** [MCPHubClient.__init__] with its default arguments. *)
Definition default_client : MCPHubClient := {| host := "127.0.0.1"; port := 3000 |}.

Definition base_url (c : MCPHubClient) : string :=
  "http://" +:+ host c +:+ ":" +:+ pretty (port c).

Section Client.

(** The environment: the network, and the two library functions that
    turn a body into a value ([bytes.decode] and [json.loads]); each
    of them returns [None] where Python raises. *)
Variable network : request -> http_outcome.
Variable utf8_decode : string -> option string.
Variable json_loads : string -> option json.

(** [urlopen] raises on a transport failure and, through urllib's
    [HTTPErrorProcessor], on every final status outside 200..299. *)
Definition urlopen (req : request) : result string :=
  match network req with
  | TransportError e => Raise e
  | Response status body =>
      if (200 <=? status) && (status <? 300) then Return body
      else Raise (HTTPError status)
  end.

Definition decode (body : string) : result string :=
  match utf8_decode body with
  | Some s => Return s
  | None => Raise UnicodeDecodeError
  end.

Definition loads (s : string) : result json :=
  match json_loads s with
  | Some v => Return v
  | None => Raise JSONDecodeError
  end.

(** An API call yields the requests it sent and what it returned. *)
Definition call : Type := list request * result json.

Definition _get_request (c : MCPHubClient) (path : string) : request :=
  {| req_method := GET;
     req_url := base_url c +:+ path;
     req_data := None;
     req_headers := [];
     req_timeout := 5 |}.

Definition _get (c : MCPHubClient) (path : string) : call :=
  let req := _get_request c path in
  ([req],
   try_except
     (do body <- urlopen req; do s <- decode body; loads s)
     (Return PyNone)).

(** [body or {}]: [None] and the empty dict are both falsy. The bodies
    of this client are dicts of strings, which [json.dumps] always
    serialises. *)
Definition body_or_empty (body : option (list (string * json))) : list (string * json) :=
  match body with
  | Some (f :: fs) => f :: fs
  | _ => []
  end.

Definition _post_request (c : MCPHubClient) (path : string)
    (body : option (list (string * json))) (query : string) : request :=
  {| req_method := POST;
     req_url := base_url c +:+ path +:+ query;
     req_data := Some (JObj (body_or_empty body));
     req_headers := [("Content-Type", "application/json")];
     req_timeout := 10 |}.

Definition _post (c : MCPHubClient) (path : string)
    (body : option (list (string * json))) (query : string) : call :=
  let req := _post_request c path body query in
  ([req],
   try_except
     (do resp <- urlopen req; do s <- decode resp; loads s)
     (Return PyNone)).

Definition get_health (c : MCPHubClient) : call := _get c "/api/health".

Definition get_servers (c : MCPHubClient) : call := _get c "/api/servers".

Definition start_server (c : MCPHubClient) (name : string) : call :=
  _post c "/api/servers/start" (Some [("server_name", JStr name)]) "".

Definition stop_server (c : MCPHubClient) (name : string) (disable : bool) : call :=
  let query := if disable then "?disable=true" else "" in
  _post c "/api/servers/stop" (Some [("server_name", JStr name)]) query.

Definition refresh_server (c : MCPHubClient) (name : string) : call :=
  _post c "/api/servers/refresh" (Some [("server_name", JStr name)]) "".

Definition restart_hub (c : MCPHubClient) : call :=
  _post c "/api/restart" None "".

(** The six operations of the client, with their arguments. *)
Inductive api_op :=
| GetHealth
| GetServers
| StartServer (name : string)
| StopServer (name : string) (disable : bool)
| RefreshServer (name : string)
| RestartHub.

Definition run_op (c : MCPHubClient) (op : api_op) : call :=
  match op with
  | GetHealth => get_health c
  | GetServers => get_servers c
  | StartServer name => start_server c name
  | StopServer name disable => stop_server c name disable
  | RefreshServer name => refresh_server c name
  | RestartHub => restart_hub c
  end.

(** The three ways a round trip fails. A transport error is one of the
    [Exception] classes urllib and the socket layer raise. *)
Definition valid_json_body (body : string) : Prop :=
  exists s v, utf8_decode body = Some s /\ json_loads s = Some v.

Inductive round_trip_fails (req : request) : Prop :=
| fails_transport e :
    network req = TransportError e -> is_Exception e = true ->
    round_trip_fails req
| fails_status status body :
    network req = Response status body -> ~ (200 <= status < 300) ->
    round_trip_fails req
| fails_body status body :
    network req = Response status body -> ~ valid_json_body body ->
    round_trip_fails req.

End Client.

(** An environment for the examples: the hub answers every request with
    status 500, bodies are ASCII, and the only JSON text is [null]. *)
Definition failing_network (req : request) : http_outcome :=
  Response 500 "Internal Server Error".

Definition ascii_decode (body : string) : option string := Some body.

Definition null_loads (s : string) : option json :=
  if String.eqb s "null" then Some JNull else None.

(** A hub that answers every request with status 200 and an empty JSON
    object, and a decoder that knows that text. *)
Definition healthy_network (req : request) : http_outcome := Response 200 "{}".

Definition object_loads (s : string) : option json :=
  if String.eqb s "{}" then Some (JObj []) else None.

(** A call that is interrupted from the keyboard while it waits. *)
Definition interrupted_network (req : request) : http_outcome :=
  TransportError KeyboardInterrupt.

End HubClient.

(** ** gui/logs_tab.py *)

Module LogsTab.

(** The widget state the log viewer reads and writes. [log_text] is the
    content of the text box, one element per [insert("end", line)];
    [clock_reads] counts the calls to [datetime.now()] made so far. *)
Record LogsTab := {
  show_debug   : bool;
  debug_var    : bool;                      (* the "Show DEBUG" check box *)
  level_filter : string;                    (* current value of the option menu *)
  log_entries  : list (string * string);    (* list of (level, text) *)
  log_text     : list string;
  clock_reads  : nat
}.

(** [LogsTab.__init__] followed by [_build_ui]. *)
Definition init : LogsTab :=
  {| show_debug := false; debug_var := false; level_filter := "ALL";
     log_entries := []; log_text := []; clock_reads := 0 |}.

Definition newline : string := String (Ascii.ascii_of_nat 10) "".

Definition format_line (ts level message : string) : string :=
  "[" +:+ ts +:+ "] [" +:+ level +:+ "] " +:+ message +:+ newline.

Definition set_log_text (txt : list string) (t : LogsTab) : LogsTab :=
  {| show_debug := show_debug t; debug_var := debug_var t;
     level_filter := level_filter t; log_entries := log_entries t;
     log_text := txt; clock_reads := clock_reads t |}.

Definition set_log_entries (es : list (string * string)) (t : LogsTab) : LogsTab :=
  {| show_debug := show_debug t; debug_var := debug_var t;
     level_filter := level_filter t; log_entries := es;
     log_text := log_text t; clock_reads := clock_reads t |}.

Definition set_show_debug (b : bool) (t : LogsTab) : LogsTab :=
  {| show_debug := b; debug_var := debug_var t;
     level_filter := level_filter t; log_entries := log_entries t;
     log_text := log_text t; clock_reads := clock_reads t |}.

Definition set_debug_var (b : bool) (t : LogsTab) : LogsTab :=
  {| show_debug := show_debug t; debug_var := b;
     level_filter := level_filter t; log_entries := log_entries t;
     log_text := log_text t; clock_reads := clock_reads t |}.

Definition set_level_filter (v : string) (t : LogsTab) : LogsTab :=
  {| show_debug := show_debug t; debug_var := debug_var t;
     level_filter := v; log_entries := log_entries t;
     log_text := log_text t; clock_reads := clock_reads t |}.

Definition tick_clock (t : LogsTab) : LogsTab :=
  {| show_debug := show_debug t; debug_var := debug_var t;
     level_filter := level_filter t; log_entries := log_entries t;
     log_text := log_text t; clock_reads := S (clock_reads t) |}.

Definition _passes_filter (t : LogsTab) (level : string) : bool :=
  if String.eqb level "DEBUG" && negb (show_debug t) then false
  else
    let selected := level_filter t in
    if negb (String.eqb selected "ALL") && negb (String.eqb level selected)
    then false
    else true.

Definition _write_line (ts level message : string) (t : LogsTab) : LogsTab :=
  set_log_text (log_text t ++ [format_line ts level message]) t.

(** What [_open_log_file] finds on the disk. *)
Inductive open_outcome :=
| LogFileMissing
| LogFileOpened
| LogFileOpenFailed (e : string).

(** What reaches the tab: calls of [append_log] by the application, and
    the user's actions on the widgets of the tool bar. *)
Inductive action :=
| AppendLog (level message : string)
| ClickShowDebug
| SelectFilter (value : string)
| ClickClear
| ClickOpenLogFile (o : open_outcome).

Section Clock.

(** [strftime_now n] is what the [n]-th call of
    [datetime.now().strftime("%H:%M:%S")] returns. *)
Variable strftime_now : nat -> string.

Definition append_log (level message : string) (t : LogsTab) : LogsTab :=
  let ts := strftime_now (clock_reads t) in
  let t := tick_clock t in
  let t := set_log_entries (log_entries t ++ [(level, message)]) t in
  if negb (_passes_filter t level) then t
  else _write_line ts level message t.

(** One iteration of the loop of [_redraw]. *)
Definition redraw_entry (t : LogsTab) (e : string * string) : LogsTab :=
  let '(level, msg) := e in
  if _passes_filter t level then
    let ts := strftime_now (clock_reads t) in
    _write_line ts level msg (tick_clock t)
  else t.

Definition _redraw (t : LogsTab) : LogsTab :=
  foldl redraw_entry (set_log_text [] t) (log_entries t).

Definition _on_debug_toggle (t : LogsTab) : LogsTab :=
  _redraw (set_show_debug (debug_var t) t).

Definition _on_filter_change (value : string) (t : LogsTab) : LogsTab :=
  _redraw t.

Definition _clear_logs (t : LogsTab) : LogsTab :=
  set_log_text [] (set_log_entries [] t).

Definition _open_log_file (o : open_outcome) (t : LogsTab) : LogsTab :=
  match o with
  | LogFileMissing => append_log "WARN" "Log file not found at expected paths" t
  | LogFileOpened => t
  | LogFileOpenFailed e => append_log "ERROR" ("Could not open log file: " +:+ e) t
  end.

(** A check box flips its variable and an option menu stores the chosen
    value before either calls its command. *)
Definition step (a : action) (t : LogsTab) : LogsTab :=
  match a with
  | AppendLog level message => append_log level message t
  | ClickShowDebug => _on_debug_toggle (set_debug_var (negb (debug_var t)) t)
  | SelectFilter value => _on_filter_change value (set_level_filter value t)
  | ClickClear => _clear_logs t
  | ClickOpenLogFile o => _open_log_file o t
  end.

Definition run (acts : list action) (t : LogsTab) : LogsTab :=
  foldl (fun t a => step a t) t acts.

(** The states the tab can be in: those reached from [init]. *)
Definition reachable (t : LogsTab) : Prop := exists acts, t = run acts init.

(** Readings of the clock taken while a list of entries is redrawn: one
    per entry that passes the filter, in order. *)
Fixpoint redrawn_lines (t : LogsTab) (n : nat) (es : list (string * string)) : list string :=
  match es with
  | [] => []
  | (level, msg) :: es' =>
      if _passes_filter t level
      then format_line (strftime_now n) level msg :: redrawn_lines t (S n) es'
      else redrawn_lines t n es'
  end.

End Clock.

(** A clock for the examples: the seconds advance by five at each reading. *)
Definition sample_clock (n : nat) : string :=
  match n with
  | O => "10:00:00"
  | 1%nat => "10:00:05"
  | _ => "10:00:10"
  end.

(** The entries that pass the filter as it is set, in the order of the
    log, and what it means for the text box to show a list of entries:
    one line per entry, each with some time stamp. *)
Definition visible_entries (t : LogsTab) : list (string * string) :=
  List.filter (fun e => _passes_filter t (fst e)) (log_entries t).

(** Two states for the examples: a DEBUG entry logged and the level menu
    put on DEBUG; the Show DEBUG box ticked. *)
Definition debug_filtered : LogsTab :=
  run sample_clock [AppendLog "DEBUG" "tick"; SelectFilter "DEBUG"] init.

Definition debug_shown : LogsTab :=
  run sample_clock [AppendLog "DEBUG" "tick"; ClickShowDebug] init.

Definition shows (t : LogsTab) (es : list (string * string)) : Prop :=
  exists stamps,
    length stamps = length es /\
    log_text t = zip_with (fun ts e => format_line ts (fst e) (snd e)) stamps es.

End LogsTab.

(** ** gui/servers_tab.py *)

Module ServersTab.

(** One tool dict of a server: the strings under its two keys, [None]
    for a key the dict lacks. A string of the model holds the UTF-8
    encoding of the Python string. *)
Record tool := { tool_name : option string; tool_description : option string }.

(** One server dict of the health payload. A key the dict lacks reads as
    [None] through [dict.get]; [sd_disabled] is the truth value of
    [data.get("disabled", False)]. *)
Record server_dict := {
  sd_name      : option string;
  sd_status    : option string;
  sd_disabled  : bool;
  sd_type      : option string;
  sd_url       : option string;
  sd_tools     : list tool;
  sd_resources : list tool;
  sd_prompts   : list tool
}.

(** [ToolsList]: the collapsible list inside a card. *)
Record ToolsList := { tools : list tool; expanded : bool }.

(** [ToolsList.__init__]: hidden by default. *)
Definition ToolsList_init (ts : list tool) : ToolsList :=
  {| tools := ts; expanded := false |}.

Definition _toggle (tl : ToolsList) : ToolsList :=
  {| tools := tools tl; expanded := negb (expanded tl) |}.

Definition set_tools (ts : list tool) (tl : ToolsList) : ToolsList :=
  {| tools := ts; expanded := expanded tl |}.

Record ServerCard := {
  server_data    : server_dict;
  server_name    : string;
  display_status : string;
  transport      : string;
  enabled_var    : bool;
  tools_list     : ToolsList
}.

Definition build_display_status (data : server_dict) : string :=
  if sd_disabled data then "disabled" else default "unknown" (sd_status data).

Definition build_transport (data : server_dict) : string :=
  match sd_type data with
  | Some (String c s) => String c s
  | _ => match sd_url data with
         | Some (String _ _) => "remote"
         | _ => "stdio"
         end
  end.

(** [ServerCard._build]: every widget of the card is made anew, the tools
    list among them. *)
Definition _build (name : string) (data : server_dict) : ServerCard :=
  {| server_data := data;
     server_name := name;
     display_status := build_display_status data;
     transport := build_transport data;
     enabled_var := negb (sd_disabled data);
     tools_list := ToolsList_init (sd_tools data) |}.

(** [ServerCard.__init__] *)
Definition ServerCard_init (data : server_dict) : ServerCard :=
  _build (default "unknown" (sd_name data)) data.

(** [ServerCard.update_data]: destroys the children and builds again. *)
Definition update_data (data : server_dict) (card : ServerCard) : ServerCard :=
  _build (server_name card) data.


(** Cards are kept in a dict keyed by [s.get("name")], which is [None]
    for a server dict without a name. *)
Record ServersTab := {
  cards : gmap (option string) ServerCard;
  empty_label_mapped : bool
}.

(** [ServersTab.__init__] *)
Definition init : ServersTab := {| cards := ∅; empty_label_mapped := true |}.

(** What a refresh does to the card widgets, in order. *)
Inductive widget_op :=
| CardCreated (name : option string)
| CardDestroyed (name : option string)
| CardUpdated (name : option string).

Definition current_names (servers_list : list server_dict) : gset (option string) :=
  list_to_set (sd_name <$> servers_list).

(** The first loop of [refresh]: pop and destroy the vanished cards. *)
Definition remove_gone (gone : list (option string))
    (cs : gmap (option string) ServerCard) : gmap (option string) ServerCard :=
  foldl (fun m name => delete name m) cs gone.

(** One iteration of the second loop of [refresh]. *)
Definition refresh_entry (acc : gmap (option string) ServerCard * list widget_op)
    (sdata : server_dict) : gmap (option string) ServerCard * list widget_op :=
  let '(cs, ops) := acc in
  let name := sd_name sdata in
  match cs !! name with
  | Some card => (<[name := update_data sdata card]> cs, ops ++ [CardUpdated name])
  | None => (<[name := ServerCard_init sdata]> cs, ops ++ [CardCreated name])
  end.

Definition refresh (servers_list : list server_dict) (t : ServersTab)
    : ServersTab * list widget_op :=
  let existing_names := dom (cards t) in
  let gone := elements (existing_names ∖ current_names servers_list) in
  let cs := remove_gone gone (cards t) in
  let ops := CardDestroyed <$> gone in
  match servers_list with
  | [] => ({| cards := cs; empty_label_mapped := true |}, ops)
  | _ :: _ =>
      let '(cs', ops') := foldl refresh_entry (cs, ops) servers_list in
      ({| cards := cs'; empty_label_mapped := false |}, ops')
  end.



(** *** The widgets of a [ToolsList]

    The two fields of [ToolsList] together with what its widgets show:
    the text of the toggle button, whether [list_frame] is packed, and
    the texts of the labels inside [list_frame]. *)
Record ToolsView := {
  tv_tools       : list tool;
  tv_expanded    : bool;
  tv_toggle_text : string;
  tv_list_packed : bool;
  tv_labels      : list string
}.

Definition arrow (is_expanded : bool) : string :=
  if is_expanded then "▾" else "▸".

(** [f"Tools ({len(self.tools)})  {arrow}"] *)
Definition tools_caption (n : nat) (a : string) : string :=
  "Tools (" +:+ pretty n +:+ ")  " +:+ a.

(** [ToolsList.__init__]: the frame of the labels is created empty and is
    not packed. *)
Definition ToolsView_init (ts : list tool) : ToolsView :=
  {| tv_tools := ts; tv_expanded := false;
     tv_toggle_text := tools_caption (length ts) "▸";
     tv_list_packed := false; tv_labels := [] |}.

(** [ToolsList._toggle] *)
Definition view_toggle (v : ToolsView) : ToolsView :=
  if tv_expanded v then
    {| tv_tools := tv_tools v; tv_expanded := negb (tv_expanded v);
       tv_toggle_text := tools_caption (length (tv_tools v)) "▸";
       tv_list_packed := false; tv_labels := tv_labels v |}
  else
    {| tv_tools := tv_tools v; tv_expanded := negb (tv_expanded v);
       tv_toggle_text := tools_caption (length (tv_tools v)) "▾";
       tv_list_packed := true; tv_labels := tv_labels v |}.

(** Python counts and cuts a string by code points. In UTF-8 the bytes
    from 128 to 191 continue a code point; every other byte begins one. *)
Definition is_continuation (c : ascii) : bool :=
  ((128 <=? nat_of_ascii c) && (nat_of_ascii c <? 192))%nat.

(** [len(s)] *)
Fixpoint py_len (s : string) : nat :=
  match s with
  | EmptyString => 0%nat
  | String c r => if is_continuation c then py_len r else S (py_len r)
  end.

(** [s[:n]] *)
Fixpoint py_prefix (n : nat) (s : string) : string :=
  match s with
  | EmptyString => EmptyString
  | String c r =>
      if is_continuation c then String c (py_prefix n r)
      else match n with
           | O => EmptyString
           | S n' => String c (py_prefix n' r)
           end
  end.

(** [(desc[:80] + "...") if len(desc) > 80 else desc] *)
Definition short_description (desc : string) : string :=
  if (80 <? py_len desc)%nat then py_prefix 80 desc +:+ "..."
  else desc.

(** The labels [set_tools] makes for one tool: its name, and its
    shortened description when that is not empty. *)
Definition tool_labels (t : tool) : list string :=
  let name := default "unknown" (tool_name t) in
  let desc := default "" (tool_description t) in
  let short := short_description desc in
  ("  •  " +:+ name) ::
  (if String.eqb short "" then [] else ["      " +:+ short]).

(** [p] is made of the first [n] code points of [d]. *)
Definition cut_to (n : nat) (d p : string) : Prop :=
  exists rest,
    d = p +:+ rest /\ py_len p = n /\
    match rest with
    | String c _ => is_continuation c = false
    | EmptyString => True
    end.

(** The labels a tool is to have in the list: one with its name, or
    "unknown" for a tool without a name, and below it, unless the
    description is missing or empty, one with the description, cut after
    80 characters and followed by three dots when it is longer. *)
Inductive labels_of (t : tool) : list string -> Prop :=
| labels_name :
    default "" (tool_description t) = "" ->
    labels_of t ["  •  " +:+ default "unknown" (tool_name t)]
| labels_whole d :
    tool_description t = Some d -> d <> "" -> (py_len d <= 80)%nat ->
    labels_of t ["  •  " +:+ default "unknown" (tool_name t); "      " +:+ d]
| labels_cut d p :
    tool_description t = Some d -> (80 < py_len d)%nat -> cut_to 80 d p ->
    labels_of t ["  •  " +:+ default "unknown" (tool_name t);
                 "      " +:+ p +:+ "..."].

(** [ToolsList.set_tools]: the old labels are destroyed, new ones made. *)
Definition view_set_tools (ts : list tool) (v : ToolsView) : ToolsView :=
  {| tv_tools := ts; tv_expanded := tv_expanded v;
     tv_toggle_text := tools_caption (length ts) (arrow (tv_expanded v));
     tv_list_packed := tv_list_packed v;
     tv_labels := flat_map tool_labels ts |}.

(** What a [ToolsList] goes through: clicks on its button and calls of
    [set_tools]. *)
Inductive view_action :=
| ViewToggle
| ViewSetTools (ts : list tool).

Definition view_step (a : view_action) (v : ToolsView) : ToolsView :=
  match a with
  | ViewToggle => view_toggle v
  | ViewSetTools ts => view_set_tools ts v
  end.

Definition view_run (acts : list view_action) (v : ToolsView) : ToolsView :=
  foldl (fun v a => view_step a v) v acts.

(** The widgets agree with the [expanded] flag. *)
Definition view_consistent (v : ToolsView) : Prop :=
  tv_list_packed v = tv_expanded v /\
  tv_toggle_text v = tools_caption (length (tv_tools v)) (arrow (tv_expanded v)).

(** The two fields kept in [ToolsList]. *)
Definition view_state (v : ToolsView) : ToolsList :=
  {| tools := tv_tools v; expanded := tv_expanded v |}.

(** *** The switch of a card *)

Section Switch.

Variable network : HubClient.request -> HubClient.http_outcome.
Variable utf8_decode : string -> option string.
Variable json_loads : string -> option HubClient.json.

(** The body of [do] in [ServerCard._on_switch], with the value of
    [enabled_var] read when the switch was used. The [on_toggle] given by
    [ServersTab.refresh] is [lambda: None]. *)
Definition _on_switch (client : HubClient.MCPHubClient) (card : ServerCard)
    : HubClient.call :=
  if enabled_var card
  then HubClient.start_server network utf8_decode json_loads client (server_name card)
  else HubClient.stop_server network utf8_decode json_loads client (server_name card) true.

(** The user flips the switch: the widget inverts its variable and calls
    the command. *)
Definition flip_switch (client : HubClient.MCPHubClient) (card : ServerCard)
    : ServerCard * HubClient.call :=
  let card' :=
    {| server_data := server_data card;
       server_name := server_name card;
       display_status := display_status card;
       transport := transport card;
       enabled_var := negb (enabled_var card);
       tools_list := tools_list card |} in
  (card', _on_switch client card').

End Switch.

(** The last server dict of a roster that bears a given name. *)
Definition last_named (k : option string) (roster : list server_dict)
    : option server_dict :=
  last (List.filter (fun s => bool_decide (sd_name s = k)) roster).

End ServersTab.

(** ** gui/app.py: the fetch of [_poll_health] *)

Module Polling.
Import Py HubClient.

(** The truth value of a decoded payload, as [if data:] takes it. *)
Definition truthy (v : json) : bool :=
  match v with
  | JNull => false
  | JBool b => b
  | JNum z => negb (z =? 0)
  | JStr s => negb (String.eqb s "")
  | JArr l => match l with [] => false | _ => true end
  | JObj fields => match fields with [] => false | _ => true end
  end.

Section Fetch.

Variable network : request -> http_outcome.
Variable utf8_decode : string -> option string.
Variable json_loads : string -> option json.

(** The function [fetch] of [_poll_health]: the requests it sends, and
    the payload for which it schedules a refresh of the servers tab, if
    any. Its handler is [except Exception: pass]. *)
Definition fetch (c : MCPHubClient) : list request * result (option json) :=
  let '(reqs, r) := get_health network utf8_decode json_loads c in
  (reqs,
   try_except
     (do data <- r; Return (if truthy data then Some data else None))
     (Return None)).

End Fetch.

(** What a fetch meets outside the program: the network and the two
    library functions that decode a body. *)
Record environment := {
  env_network     : request -> http_outcome;
  env_utf8_decode : string -> option string;
  env_json_loads  : string -> option json
}.

(** A machine without network. *)
Definition no_network : environment :=
  {| env_network := fun _ => TransportError URLError;
     env_utf8_decode := fun _ => None;
     env_json_loads := fun _ => None |}.

(** The hub answers every request with status 200 and an empty object. *)
Definition healthy : environment :=
  {| env_network := healthy_network;
     env_utf8_decode := ascii_decode;
     env_json_loads := object_loads |}.

End Polling.

(** ** gui/app.py *)

Module App.
Import Py.

Definition DEFAULT_PORT : Z := 3000.
Definition CONFIG_FILENAME : string := "mcp-servers.json".

(** *** The library functions behind [int(entry.get().strip())]

    The entry holds any Python string. A character is given by its code
    point together with what the Unicode database of the interpreter
    records for it: whether it is white space, and its value as a decimal
    digit if it is one. The database is consulted for code points from
    128 on; below, CPython decides from the code point alone. *)

Inductive dec := D0 | D1 | D2 | D3 | D4 | D5 | D6 | D7 | D8 | D9.

Definition dec_value (d : dec) : Z :=
  match d with
  | D0 => 0 | D1 => 1 | D2 => 2 | D3 => 3 | D4 => 4
  | D5 => 5 | D6 => 6 | D7 => 7 | D8 => 8 | D9 => 9
  end.

Record uchar := {
  code       : Z;
  db_space   : bool;         (* [Py_UNICODE_ISSPACE] *)
  db_decimal : option dec    (* [Py_UNICODE_TODECIMAL] *)
}.

(** The characters of an ASCII string, as [str(self.port)] makes them. *)
Definition ascii_char (c : ascii) : uchar :=
  {| code := Z.of_nat (nat_of_ascii c); db_space := false; db_decimal := None |}.

Definition text_of_string (s : string) : list uchar :=
  ascii_char <$> String.list_ascii_of_string s.

(** [str.isspace] on one character, the set [str.strip] removes. *)
Definition py_isspace (c : uchar) : bool :=
  let n := code c in
  if n <? 128 then ((9 <=? n) && (n <=? 13)) || ((28 <=? n) && (n <=? 32))
  else db_space c.

(** The white space the integer parser itself skips: [Py_ISSPACE] and,
    through the copy of the text it parses, Unicode white space. *)
Definition c_isspace (c : uchar) : bool :=
  let n := code c in
  if n <? 128 then ((9 <=? n) && (n <=? 13)) || (n =? 32)
  else db_space c.

Fixpoint lstrip (sp : uchar -> bool) (l : list uchar) : list uchar :=
  match l with
  | [] => []
  | c :: r => if sp c then lstrip sp r else l
  end.

Definition strip_with (sp : uchar -> bool) (l : list uchar) : list uchar :=
  rev (lstrip sp (rev (lstrip sp l))).

(** [str.strip()] *)
Definition strip (s : list uchar) : list uchar := strip_with py_isspace s.

(** The value of a character as a decimal digit: the ASCII digits, and
    outside ASCII every decimal digit of Unicode. *)
Definition digit_value (c : uchar) : option Z :=
  let n := code c in
  if n <? 128 then
    if (48 <=? n) && (n <=? 57) then Some (n - 48) else None
  else if db_space c then None
  else dec_value <$> db_decimal c.

Definition is_underscore (c : uchar) : bool := code c =? 95.

(** Decimal digits, with single underscores allowed between two digits.
    Returns the value and the number of digits read. *)
Fixpoint parse_digits (l : list uchar) (acc : Z) (ndigits : nat) (prev_digit : bool)
    : option (Z * nat) :=
  match l with
  | [] => if prev_digit then Some (acc, ndigits) else None
  | c :: r =>
      match digit_value c with
      | Some d => parse_digits r (10 * acc + d) (S ndigits) true
      | None =>
          if is_underscore c && prev_digit then parse_digits r acc ndigits false
          else None
      end
  end.

Definition split_sign (l : list uchar) : bool * list uchar :=
  match l with
  | c :: r =>
      if code c =? 43 then (false, r)
      else if code c =? 45 then (true, r)
      else (false, l)
  | [] => (false, [])
  end.

(** The number that a list of decimal digits writes, most significant
    digit first. *)
Definition is_digit (c : uchar) : bool :=
  match digit_value c with
  | Some _ => true
  | None => false
  end.

Definition decimal_value (ds : list uchar) : Z :=
  fold_left (fun acc c => 10 * acc + default 0 (digit_value c)) ds 0.

(** *** Integers in writing

    What it is for a text to parse as an integer, said without the
    parser: white space, digits, numerals and signed numerals. *)






Section Lifecycle.

(** [sys.get_int_max_str_digits()]: 4300 by default since Python 3.11,
    and 0 where the interpreter has no limit; the interpreter takes no
    other limit below 640. *)
Variable int_max_str_digits : nat.

(** The directory [find_project_root] found when the module was loaded. *)
Variable PROJECT_ROOT : string.

(** [int(s)] for a string, in base 10; raises [ValueError]. *)
Definition py_int (s : list uchar) : result Z :=
  let l := strip_with c_isspace s in
  let '(negative, digits) := split_sign l in
  match parse_digits digits 0 0 false with
  | Some (v, n) =>
      if ((0 <? int_max_str_digits) && (int_max_str_digits <? n))%nat
      then Raise ValueError
      else Return (if negative then - v else v)
  | None => Raise ValueError
  end.

(** [MCPHubApp._read_port], on the text of the port entry. The handler
    is [except ValueError]: any other exception would go through. *)
Definition _read_port (entry_text : list uchar) : result Z :=
  match py_int (strip entry_text) with
  | Return val =>
      if (1 <=? val) && (val <=? 65535) then Return val
      else Return DEFAULT_PORT
  | Raise ValueError => Return DEFAULT_PORT
  | Raise e => Raise e
  end.

(** The number [_read_port] returns; it never raises. *)
Definition entered_port (entry_text : list uchar) : Z :=
  match py_int (strip entry_text) with
  | Return v => if (1 <=? v) && (v <=? 65535) then v else 3000
  | Raise _ => 3000
  end.


(** *** The application object and its surroundings *)

Definition handle := nat.

Inductive btn_state := normal | disabled.

Record MCPHubApp := {
  hub_process     : option handle;
  hub_running     : bool;
  port            : Z;
  client_port     : Z;                       (* self.client.port *)
  port_entry      : list uchar;
  start_btn_state : btn_state;
  start_btn_text  : string;
  status_label    : string;
  log             : list (string * string)   (* calls of logs_tab.append_log *)
}.

(** A thread started by [_start_hub], at the point of [run] it has reached. *)
Inductive thread :=
| Starting                 (* before [subprocess.Popen] returns *)
| Streaming (h : handle)   (* in the loop over the lines of [h]'s output *)
| Waiting (h : handle)     (* in [self.hub_process.wait()], called on [h] *)
| Finished.

Inductive callback := PollHealth.

(** A process runs, or has been sent the signal of [kill()] and has not
    exited yet, or has exited. *)
Inductive proc := ProcRunning | ProcKilled | ProcExited.

(** The application with what lives outside the object: the processes
    spawned so far ([procs], indexed by handle), the command lines given
    to [Popen], the worker threads, the timers of Tk's [after] with their
    due time in milliseconds, the requests the health fetches have sent,
    and the payloads for which they scheduled a refresh of the servers
    tab. *)
Record World := {
  app         : MCPHubApp;
  procs       : list proc;
  popen_calls : list (list string);
  threads     : list thread;
  timers      : list (Z * callback);
  now         : Z;
  sent        : list HubClient.request;
  scheduled   : list HubClient.json
}.

Definition upd_app (f : MCPHubApp -> MCPHubApp) (w : World) : World :=
  {| app := f (app w); procs := procs w; popen_calls := popen_calls w;
     threads := threads w; timers := timers w; now := now w;
     sent := sent w; scheduled := scheduled w |}.

Definition set_procs (ps : list proc) (w : World) : World :=
  {| app := app w; procs := ps; popen_calls := popen_calls w;
     threads := threads w; timers := timers w; now := now w;
     sent := sent w; scheduled := scheduled w |}.

Definition set_popen_calls (cs : list (list string)) (w : World) : World :=
  {| app := app w; procs := procs w; popen_calls := cs;
     threads := threads w; timers := timers w; now := now w;
     sent := sent w; scheduled := scheduled w |}.

Definition set_threads (ts : list thread) (w : World) : World :=
  {| app := app w; procs := procs w; popen_calls := popen_calls w;
     threads := ts; timers := timers w; now := now w;
     sent := sent w; scheduled := scheduled w |}.

Definition set_timers (ts : list (Z * callback)) (w : World) : World :=
  {| app := app w; procs := procs w; popen_calls := popen_calls w;
     threads := threads w; timers := ts; now := now w;
     sent := sent w; scheduled := scheduled w |}.

Definition set_now (t : Z) (w : World) : World :=
  {| app := app w; procs := procs w; popen_calls := popen_calls w;
     threads := threads w; timers := timers w; now := t;
     sent := sent w; scheduled := scheduled w |}.

Definition set_sent (rs : list HubClient.request) (w : World) : World :=
  {| app := app w; procs := procs w; popen_calls := popen_calls w;
     threads := threads w; timers := timers w; now := now w;
     sent := rs; scheduled := scheduled w |}.

Definition set_scheduled (ds : list HubClient.json) (w : World) : World :=
  {| app := app w; procs := procs w; popen_calls := popen_calls w;
     threads := threads w; timers := timers w; now := now w;
     sent := sent w; scheduled := ds |}.

Definition set_hub_process (p : option handle) (a : MCPHubApp) : MCPHubApp :=
  {| hub_process := p; hub_running := hub_running a; port := port a;
     client_port := client_port a; port_entry := port_entry a;
     start_btn_state := start_btn_state a; start_btn_text := start_btn_text a;
     status_label := status_label a; log := log a |}.

Definition set_hub_running (b : bool) (a : MCPHubApp) : MCPHubApp :=
  {| hub_process := hub_process a; hub_running := b; port := port a;
     client_port := client_port a; port_entry := port_entry a;
     start_btn_state := start_btn_state a; start_btn_text := start_btn_text a;
     status_label := status_label a; log := log a |}.

Definition set_port (p : Z) (a : MCPHubApp) : MCPHubApp :=
  {| hub_process := hub_process a; hub_running := hub_running a; port := p;
     client_port := client_port a; port_entry := port_entry a;
     start_btn_state := start_btn_state a; start_btn_text := start_btn_text a;
     status_label := status_label a; log := log a |}.

Definition set_client_port (p : Z) (a : MCPHubApp) : MCPHubApp :=
  {| hub_process := hub_process a; hub_running := hub_running a; port := port a;
     client_port := p; port_entry := port_entry a;
     start_btn_state := start_btn_state a; start_btn_text := start_btn_text a;
     status_label := status_label a; log := log a |}.

Definition set_port_entry (s : list uchar) (a : MCPHubApp) : MCPHubApp :=
  {| hub_process := hub_process a; hub_running := hub_running a; port := port a;
     client_port := client_port a; port_entry := s;
     start_btn_state := start_btn_state a; start_btn_text := start_btn_text a;
     status_label := status_label a; log := log a |}.

Definition set_start_btn_state (s : btn_state) (a : MCPHubApp) : MCPHubApp :=
  {| hub_process := hub_process a; hub_running := hub_running a; port := port a;
     client_port := client_port a; port_entry := port_entry a;
     start_btn_state := s; start_btn_text := start_btn_text a;
     status_label := status_label a; log := log a |}.

Definition set_start_btn_text (s : string) (a : MCPHubApp) : MCPHubApp :=
  {| hub_process := hub_process a; hub_running := hub_running a; port := port a;
     client_port := client_port a; port_entry := port_entry a;
     start_btn_state := start_btn_state a; start_btn_text := s;
     status_label := status_label a; log := log a |}.

Definition set_status_label (s : string) (a : MCPHubApp) : MCPHubApp :=
  {| hub_process := hub_process a; hub_running := hub_running a; port := port a;
     client_port := client_port a; port_entry := port_entry a;
     start_btn_state := start_btn_state a; start_btn_text := start_btn_text a;
     status_label := s; log := log a |}.

Definition append_log (level message : string) (a : MCPHubApp) : MCPHubApp :=
  {| hub_process := hub_process a; hub_running := hub_running a; port := port a;
     client_port := client_port a; port_entry := port_entry a;
     start_btn_state := start_btn_state a; start_btn_text := start_btn_text a;
     status_label := status_label a; log := log a ++ [(level, message)] |}.

(** *** Code that changes the world and may raise *)

Definition M (A : Type) : Type := World -> World * result A.

Definition ret {A} (a : A) : M A := fun w => (w, Return a).

Definition raise {A} (e : exn) : M A := fun w => (w, Raise e).

Definition modify (f : World -> World) : M unit := fun w => (f w, Return tt).

Definition seq {A B} (m : M A) (k : A -> M B) : M B :=
  fun w =>
    match m w with
    | (w', Return a) => k a w'
    | (w', Raise e) => (w', Raise e)
    end.

(** [try: body except Exception: handler]; the handler starts from the
    state the body left. *)
Definition try_ {A} (body handler : M A) : M A :=
  fun w =>
    match body w with
    | (w', Return a) => (w', Return a)
    | (w', Raise e) => if is_Exception e then handler w' else (w', Raise e)
    end.

Notation "m1 ;; m2" := (seq m1 (fun _ => m2))
  (at level 100, m2 at level 200, right associativity).

(** *** Signals

    What the operating system does with the signals of one stop request
    sent to a process that is still alive. On a process that has already
    exited, [terminate], [wait] and [kill] return at once. [wait] returns
    when the process has exited. [kill] returns when the signal is sent:
    the process exits later, and nothing in the program waits for it. *)
Record signals := {
  terminate_raises : bool;   (* [terminate()] raises *)
  exits_in_time    : bool;   (* the process exits within the timeout of [wait] *)
  kill_raises      : bool    (* [kill()] raises *)
}.

Definition is_alive (h : handle) (w : World) : bool :=
  match procs w !! h with
  | Some ProcRunning | Some ProcKilled => true
  | _ => false
  end.

(** The process is alive and has not been sent the signal of [kill()]. *)
Definition is_running (h : handle) (w : World) : bool :=
  match procs w !! h with
  | Some ProcRunning => true
  | _ => false
  end.

Definition mark_exited (h : handle) (w : World) : World :=
  set_procs (<[h := ProcExited]> (procs w)) w.

Definition mark_killed (h : handle) (w : World) : World :=
  match procs w !! h with
  | Some ProcRunning => set_procs (<[h := ProcKilled]> (procs w)) w
  | _ => w
  end.

Definition terminate (os : signals) (h : handle) : M unit :=
  fun w =>
    if is_alive h w && terminate_raises os then raise PermissionError w
    else ret tt w.

Definition wait_timeout (os : signals) (h : handle) : M unit :=
  fun w =>
    if is_alive h w && negb (exits_in_time os) then raise TimeoutExpired w
    else modify (mark_exited h) w.

Definition kill (os : signals) (h : handle) : M unit :=
  fun w =>
    if is_alive h w && kill_raises os then raise PermissionError w
    else modify (mark_killed h) w.

(** *** Hub life cycle *)

(** [MCPHubApp._stop_hub] *)
Definition _stop_hub (os : signals) : M unit :=
  modify (upd_app (append_log "INFO" "Stopping MCP Hub...")) ;;
  (fun w =>
     match hub_process (app w) with
     | Some h =>
         (try_ (terminate os h ;; wait_timeout os h) (kill os h) ;;
          modify (upd_app (set_hub_process None))) w
     | None => ret tt w
     end) ;;
  modify (upd_app (set_hub_running false)) ;;
  modify (upd_app (set_start_btn_text "Start Hub")) ;;
  modify (upd_app (set_status_label "Stopped")).

(** [MCPHubApp.destroy], before [super().destroy()]: the same signals,
    with [kill()] in a [try] of its own. *)
Definition destroy (os : signals) : M unit :=
  fun w =>
    match hub_process (app w) with
    | Some h =>
        try_ (terminate os h ;; wait_timeout os h)
             (try_ (kill os h) (ret tt)) w
    | None => ret tt w
    end.

Definition spawn_thread (w : World) : World :=
  set_threads (threads w ++ [Starting]) w.

(** [MCPHubApp._start_hub], up to the start of the worker thread. *)
Definition _start_hub : M unit :=
  fun w =>
    match _read_port (port_entry (app w)) with
    | Raise e => (w, Raise e)
    | Return p =>
        (modify (upd_app (set_port p)) ;;
         modify (upd_app (set_client_port p)) ;;
         modify (upd_app (set_status_label "Starting...")) ;;
         modify (upd_app (set_start_btn_state disabled)) ;;
         modify (upd_app (append_log "INFO"
                   ("Starting MCP Hub on port " +:+ pretty p +:+ "..."))) ;;
         modify spawn_thread) w
    end.

(** [MCPHubApp._toggle_hub] *)
Definition _toggle_hub (os : signals) : M unit :=
  fun w => if hub_running (app w) then _stop_hub os w else _start_hub w.

(** A click on the tool bar button: a disabled button ignores it, and an
    exception that leaves the command is reported by Tk, the state staying
    as the command left it. *)
Definition click (os : signals) (w : World) : World :=
  match start_btn_state (app w) with
  | normal => fst (_toggle_hub os w)
  | disabled => w
  end.

(** *** The worker thread of [_start_hub]

    The steps of [run]. The calls [self.after(0, ...)] of a step are run
    with the step. *)

Definition path_join (a b : string) : string := a +:+ "/" +:+ b.

Definition config_path : string := path_join PROJECT_ROOT CONFIG_FILENAME.

Definition hub_cmd (w : World) : list string :=
  [ "node";
    path_join (path_join (path_join PROJECT_ROOT "src") "utils") "cli.js";
    "--port"; pretty (port (app w));
    "--config"; config_path;
    "--watch" ].

(** The [except Exception as e] branch of [run], lines 181-184. Its third
    callback, [lambda: self.logs_tab.append_log("ERROR", str(e))], reads
    [e] when Tk calls it, after the [except] block has ended and unbound
    the name: the callback raises [NameError], which Tk reports, and no
    entry is written to the log. *)
Definition run_except (e : exn) (a : MCPHubApp) : MCPHubApp :=
  set_status_label "Error"
    (set_start_btn_text "Start Hub"
       (set_start_btn_state normal
          (set_hub_running false a))).

(** Lines 176-179: the process the thread waited for has exited. *)
Definition run_exited (a : MCPHubApp) : MCPHubApp :=
  append_log "INFO" "Hub process exited"
    (set_status_label "Stopped"
       (set_start_btn_text "Start Hub"
          (set_start_btn_state normal
             (set_hub_running false a)))).

(** Lines 154-166: [Popen] returned a process. *)
Definition run_started (h : handle) (a : MCPHubApp) : MCPHubApp :=
  append_log "INFO" "Hub process started"
    (set_status_label "Running"
       (set_start_btn_text "Stop Hub"
          (set_start_btn_state normal
             (set_hub_running true
                (set_hub_process (Some h) a))))).

Definition set_thread (i : nat) (t : thread) (w : World) : World :=
  set_threads (<[i := t]> (threads w)) w.

(** Thread [i] calls [subprocess.Popen], which succeeds or raises. *)
Definition thread_popen (i : nat) (ok : bool) (w : World) : World :=
  match threads w !! i with
  | Some Starting =>
      let w := set_popen_calls (popen_calls w ++ [hub_cmd w]) w in
      if ok then
        let h := length (procs w) in
        set_thread i (Streaming h)
          (upd_app (run_started h) (set_procs (procs w ++ [ProcRunning]) w))
      else
        set_thread i Finished (upd_app (run_except FileNotFoundError) w)
  | _ => w
  end.

(** Thread [i] reads one line, already decoded and right-stripped. *)
Definition thread_line (i : nat) (text : string) (w : World) : World :=
  match threads w !! i with
  | Some (Streaming _) =>
      if String.eqb text "" then w else upd_app (append_log "HUB" text) w
  | _ => w
  end.

(** Thread [i] reads the end of the output of its process, which has
    exited, and evaluates [self.hub_process.wait()]: the attribute is
    read now, and [None] has no [wait]. *)
Definition thread_eof (i : nat) (w : World) : World :=
  match threads w !! i with
  | Some (Streaming h) =>
      if is_alive h w then w
      else
        match hub_process (app w) with
        | None => set_thread i Finished (upd_app (run_except AttributeError) w)
        | Some h' => set_thread i (Waiting h') w
        end
  | _ => w
  end.

(** [wait()] returns in thread [i] once the process it waits for is gone. *)
Definition thread_wait_done (i : nat) (w : World) : World :=
  match threads w !! i with
  | Some (Waiting h') =>
      if is_alive h' w then w
      else set_thread i Finished (upd_app run_exited w)
  | _ => w
  end.

(** *** Polling *)

(** [self.client]: made by [MCPHubClient(port=self.port)], its port set
    again by [_start_hub]. *)
Definition client (w : World) : HubClient.MCPHubClient :=
  {| HubClient.host := "127.0.0.1"; HubClient.port := client_port (app w) |}.

(** The thread of [fetch], run with the tick that starts it: the
    requests of [self.client.get_health()] go out, and a refresh is
    scheduled for the payload when [fetch] asks for one. *)
Definition run_fetch (env : Polling.environment) (w : World) : World :=
  let '(reqs, r) :=
    Polling.fetch (Polling.env_network env) (Polling.env_utf8_decode env)
      (Polling.env_json_loads env) (client w) in
  let refreshes :=
    match r with
    | Return (Some data) => [data]
    | _ => []
    end in
  set_scheduled (scheduled w ++ refreshes) (set_sent (sent w ++ reqs) w).

(** [MCPHubApp._poll_health] *)
Definition _poll_health (env : Polling.environment) (w : World) : World :=
  let w := if hub_running (app w) then run_fetch env w else w in
  set_timers (timers w ++ [(now w + 3000, PollHealth)]) w.

(** Tk runs the first timer, [late] milliseconds after it was due. *)
Definition tick (late : Z) (env : Polling.environment) (w : World) : World :=
  match timers w with
  | (due, PollHealth) :: rest =>
      _poll_health env (set_now (due + Z.max 0 late) (set_timers rest w))
  | [] => w
  end.

(** *** The application as a transition system *)

Inductive event :=
| Click (os : signals)
| TypePort (text : list uchar)
| ThreadPopen (i : nat) (ok : bool)
| ThreadLine (i : nat) (text : string)
| ThreadEof (i : nat)
| ThreadWaitDone (i : nat)
| ProcExit (h : handle)
| Tick (late : Z) (env : Polling.environment).

Definition step (e : event) (w : World) : World :=
  match e with
  | Click os => click os w
  | TypePort text => upd_app (set_port_entry text) w
  | ThreadPopen i ok => thread_popen i ok w
  | ThreadLine i text => thread_line i text w
  | ThreadEof i => thread_eof i w
  | ThreadWaitDone i => thread_wait_done i w
  | ProcExit h => mark_exited h w
  | Tick late env => tick late env w
  end.

Definition run (es : list event) (w : World) : World :=
  foldl (fun w e => step e w) w es.

(** [MCPHubApp.__init__], which ends with a first call of [_poll_health].
    The running flag is clear then, so that call starts no fetch, whatever
    the network. *)
Definition init : World :=
  _poll_health Polling.no_network
    {| app := {| hub_process := None; hub_running := false;
                 port := DEFAULT_PORT; client_port := DEFAULT_PORT;
                 port_entry := text_of_string (pretty DEFAULT_PORT);
                 start_btn_state := normal; start_btn_text := "Start Hub";
                 status_label := "Stopped"; log := [] |};
       procs := []; popen_calls := []; threads := []; timers := [];
       now := 0; sent := []; scheduled := [] |}.

(** The hub processes alive in a world. *)
Definition alive_handles (w : World) : list handle :=
  List.filter (fun h => is_alive h w) (List.seq 0 (length (procs w))).

(** A reader thread is settled when there is nothing it has yet to do
    about a process that was stopped or is gone: its process runs and has
    not been killed, and it is not past the end of the output. *)
Definition thread_settled (w : World) (t : thread) : bool :=
  match t with
  | Streaming h => is_running h w
  | Waiting _ => false
  | Starting | Finished => true
  end.

Definition settled (w : World) : bool := forallb (thread_settled w) (threads w).

Definition is_click (e : event) : bool :=
  match e with
  | Click _ => true
  | _ => false
  end.

(** Schedules in which the button is clicked only once the reader threads
    are settled. *)
Fixpoint unhurried (es : list event) (w : World) : bool :=
  match es with
  | [] => true
  | e :: es' => (negb (is_click e) || settled w) && unhurried es' (step e w)
  end.

(** What holds of the life cycle along such schedules: a process that
    runs is the one the application holds and is flagged as running;
    while a thread is about to call [Popen] the button is disabled, the
    flag is clear and every other thread has finished; a thread blocked
    in [wait()] waits for the process the application holds; a process
    that is alive has a reader thread in its loop; and no two processes
    are alive. *)
Definition lifecycle_inv (w : World) : Prop :=
  (forall h, is_running h w = true ->
     hub_running (app w) = true /\ hub_process (app w) = Some h) /\
  (forall i, threads w !! i = Some Starting ->
     start_btn_state (app w) = disabled /\ hub_running (app w) = false /\
     forall j t, threads w !! j = Some t -> j <> i -> t = Finished) /\
  (forall i h, threads w !! i = Some (Waiting h) -> hub_process (app w) = Some h) /\
  (forall h, is_alive h w = true -> exists i, threads w !! i = Some (Streaming h)) /\
  (forall h h', is_alive h w = true -> is_alive h' w = true -> h = h').

End Lifecycle.

(** Signals for the examples: the process exits on [terminate]; nothing
    can be signalled; [terminate] is ignored and [kill] works. *)
Definition graceful : signals :=
  {| terminate_raises := false; exits_in_time := true; kill_raises := false |}.

Definition unsignalable : signals :=
  {| terminate_raises := true; exits_in_time := false; kill_raises := true |}.

Definition stubborn : signals :=
  {| terminate_raises := false; exits_in_time := false; kill_raises := false |}.

(** Start, stop, start again, then the reader thread of the first process
    reaches the end of its stream before the second [Popen] has returned,
    and the button, enabled again, is clicked once more. *)
Definition stale_reader_trace : list event :=
  [ Click graceful; ThreadPopen 0 true;
    Click graceful;
    Click graceful;
    ThreadEof 0;
    Click graceful;
    ThreadPopen 1 true; ThreadPopen 2 true ].

(** Start, stop, let the reader thread of the stopped process finish,
    and start again. *)
Definition patient_trace : list event :=
  [ Click graceful; ThreadPopen 0 true;
    Click graceful; ThreadEof 0;
    Click graceful; ThreadPopen 1 true ].

(** The same with a process that has to be killed: it exits some time
    after the stop, and its reader thread finishes then. *)
Definition killed_trace : list event :=
  [ Click graceful; ThreadPopen 0 true;
    Click stubborn; ProcExit 0%nat; ThreadEof 0;
    Click graceful; ThreadPopen 1 true ].

(** A world in which the hub has been started and runs. *)
Definition running_world : World :=
  run 4300 "/opt/mcp-hub" [Click graceful; ThreadPopen 0 true] init.

(** The Arabic-Indic digits, U+0660 to U+0669, and the no-break space,
    U+00A0, with their entries in the Unicode database. *)
Definition arabic_indic (d : dec) : uchar :=
  {| code := 1632 + dec_value d; db_space := false; db_decimal := Some d |}.

Definition nbsp : uchar :=
  {| code := 160; db_space := true; db_decimal := None |}.

(** The text of U+00A0, U+0668, U+0660, U+0668, U+0660. *)
Definition arabic_8080 : list uchar :=
  [ nbsp; arabic_indic D8; arabic_indic D0; arabic_indic D8; arabic_indic D0 ].

End App.

(** ** gui/app.py: [find_project_root]

    A directory is given by its components below the root of the file
    system, outermost first: the parent of a directory drops the last
    component and the root is its own parent. *)

Module ProjectRoot.

Definition package_json : string := "package.json".

Section FileSystem.

(** [os.path.isfile], on the components of a path. *)
Variable isfile : list string -> bool.

(** The loop of [find_project_root], from the directory whose components
    are [rev_d], innermost first. [None] stands for leaving the loop
    through [break]. *)
Fixpoint walk_up (rev_d : list string) : option (list string) :=
  if isfile (rev rev_d ++ [package_json]) then Some (rev rev_d)
  else
    match rev_d with
    | [] => None
    | _ :: parent => walk_up parent
    end.

(** [find_project_root], where [here] is the directory of the file. *)
Definition find_project_root (here : list string) : list string :=
  default here (walk_up (rev here)).

End FileSystem.

(** A file system for the examples: the only [package.json] is in
    [/home/u/mcp-hub]. *)
Definition sample_isfile (path : list string) : bool :=
  bool_decide (path = ["home"; "u"; "mcp-hub"; "package.json"]).

End ProjectRoot.

(** * Properties *)

(** ** The HTTP client *)

Section HubClientProperties.
Import Py HubClient.

Variable network : request -> http_outcome.
Variable utf8_decode : string -> option string.
Variable json_loads : string -> option json.

Lemma urlopen_non_2xx req status body :
  network req = Response status body -> ~ (200 <= status < 300) ->
  urlopen network req = Raise (HTTPError status).
Proof.
  intros Hnet Hcode. unfold urlopen. rewrite Hnet.
  destruct (200 <=? status) eqn:Hlo; destruct (status <? 300) eqn:Hhi; simpl; try reflexivity.
  apply Z.leb_le in Hlo. apply Z.ltb_lt in Hhi. lia.
Qed.

Lemma invalid_body_raises body :
  ~ valid_json_body utf8_decode json_loads body ->
  exists e, is_Exception e = true /\
    (do s <- decode utf8_decode body; loads json_loads s) = Raise e.
Proof.
  intros Hbad. unfold decode, loads.
  destruct (utf8_decode body) as [s|] eqn:Hdec; simpl.
  - destruct (json_loads s) as [v|] eqn:Hjson.
    + exfalso. apply Hbad. exists s, v. split; assumption.
    + exists JSONDecodeError. split; reflexivity.
  - exists UnicodeDecodeError. split; reflexivity.
Qed.

(** The body of the [try] statement shared by [_get] and [_post] yields
    the sentinel whenever the round trip fails. *)
Lemma guarded_round_trip_fails req :
  round_trip_fails network utf8_decode json_loads req ->
  try_except
    (do body <- urlopen network req; do s <- decode utf8_decode body; loads json_loads s)
    (Return PyNone) = Return PyNone.
Proof.
  intros [e Hnet Hexc | status body Hnet Hcode | status body Hnet Hbody].
  - unfold urlopen. rewrite Hnet. simpl. rewrite Hexc. reflexivity.
  - rewrite (urlopen_non_2xx _ _ _ Hnet Hcode). reflexivity.
  - unfold urlopen. rewrite Hnet.
    destruct ((200 <=? status) && (status <? 300)); [|reflexivity].
    destruct (invalid_body_raises _ Hbody) as (e & Hexc & Hraise).
    cbn [bind]. rewrite Hraise. simpl. rewrite Hexc. reflexivity.
Qed.

Lemma run_op_single_request c op :
  exists req, fst (run_op network utf8_decode json_loads c op) = [req].
Proof. destruct op; eexists; reflexivity. Qed.

(** C2. Every operation of the client (get_health, get_servers,
    start_server, stop_server, refresh_server, restart_hub), whatever its
    arguments, returns [None] and does not raise when the round trip of
    the request it sends ends in a transport error, in a status outside
    200..299 or in a body that is not valid JSON. *)
Theorem api_failure_returns_None c op req :
  fst (run_op network utf8_decode json_loads c op) = [req] ->
  round_trip_fails network utf8_decode json_loads req ->
  snd (run_op network utf8_decode json_loads c op) = Return PyNone.
Proof.
  intros Hreq Hfail.
  destruct op; simpl in *; injection Hreq as <-;
    apply guarded_round_trip_fails; exact Hfail.
Qed.

(** C8, as the code has it. For every server name and both values of
    [disable], [stop_server] sends one POST request to the path
    /api/servers/stop with the JSON body [{"server_name": name}]; the
    query string is [?disable=true] when [disable] is true and the URL
    carries no query string at all when it is false. *)
Theorem stop_server_request c name disable :
  fst (stop_server network utf8_decode json_loads c name disable) =
    [ {| req_method := POST;
         req_url := base_url c +:+ "/api/servers/stop" +:+
                    (if disable then "?disable=true" else "");
         req_data := Some (JObj [("server_name", JStr name)]);
         req_headers := [("Content-Type", "application/json")];
         req_timeout := 10 |} ].
Proof. destruct disable; reflexivity. Qed.

End HubClientProperties.

Lemma api_failure_returns_None_witness :
  HubClient.round_trip_fails HubClient.failing_network HubClient.ascii_decode
    HubClient.null_loads
    (HubClient._get_request HubClient.default_client "/api/health") /\
  snd (HubClient.run_op HubClient.failing_network HubClient.ascii_decode
         HubClient.null_loads HubClient.default_client HubClient.GetHealth)
  = Py.Return HubClient.PyNone.
Proof.
  assert (Hfail : HubClient.round_trip_fails HubClient.failing_network
            HubClient.ascii_decode HubClient.null_loads
            (HubClient._get_request HubClient.default_client "/api/health")).
  { eapply HubClient.fails_status; [reflexivity | lia]. }
  split; [exact Hfail|].
  apply (api_failure_returns_None HubClient.failing_network HubClient.ascii_decode
           HubClient.null_loads HubClient.default_client HubClient.GetHealth
           (HubClient._get_request HubClient.default_client "/api/health"));
    [reflexivity | exact Hfail].
Defined.

(** C8, as the specification words it, fails: with [disable] false the
    request of [stop_server] goes to a URL that has no [disable]
    parameter, whatever text would stand for the boolean. *)
Lemma stop_server_false_has_no_disable_parameter :
  ~ exists v,
      HubClient.req_url <$>
        fst (HubClient.stop_server HubClient.failing_network HubClient.ascii_decode
               HubClient.null_loads HubClient.default_client "fs" false)
      = [ "http://127.0.0.1:3000/api/servers/stop?disable=" +:+ v ].
Proof.
  intros [v Hurl]. vm_compute in Hurl. discriminate Hurl.
Qed.

(** ** The log viewer *)

Section LogsTabProperties.
Import LogsTab.

Variable clock : nat -> string.

(** [_passes_filter] reads only the two filter settings. *)
Lemma passes_filter_ext t1 t2 level :
  show_debug t1 = show_debug t2 -> level_filter t1 = level_filter t2 ->
  _passes_filter t1 level = _passes_filter t2 level.
Proof. intros H1 H2. unfold _passes_filter. rewrite H1, H2. reflexivity. Qed.

Lemma passes_filter_true t level :
  _passes_filter t level = true <->
  (level <> "DEBUG" \/ show_debug t = true) /\
  (level_filter t = "ALL" \/ level_filter t = level).
Proof.
  unfold _passes_filter.
  destruct (String.eqb_spec level "DEBUG") as [Hd|Hd];
    destruct (show_debug t); simpl;
    destruct (String.eqb_spec (level_filter t) "ALL") as [Ha|Ha];
    destruct (String.eqb_spec level (level_filter t)) as [Hl|Hl]; simpl;
    split; intros H; try discriminate; try reflexivity;
    repeat split; auto; try congruence;
    destruct H as [[H1|H1] [H2|H2]]; congruence.
Qed.

Lemma redrawn_lines_ext t1 t2 es : forall n,
  show_debug t1 = show_debug t2 -> level_filter t1 = level_filter t2 ->
  redrawn_lines clock t1 n es = redrawn_lines clock t2 n es.
Proof.
  induction es as [|[level msg] es IH]; intros n Hs Hf; simpl; [reflexivity|].
  rewrite (passes_filter_ext t1 t2 level Hs Hf).
  destruct (_passes_filter t2 level); rewrite IH by assumption; reflexivity.
Qed.

(** The loop of [_redraw], from any text and any count of clock reads. *)
Lemma redraw_loop es : forall t,
  let t' := foldl (redraw_entry clock) t es in
  log_text t' = log_text t ++ redrawn_lines clock t (clock_reads t) es /\
  log_entries t' = log_entries t /\
  show_debug t' = show_debug t /\
  debug_var t' = debug_var t /\
  level_filter t' = level_filter t.
Proof.
  induction es as [|[level msg] es IH]; intros t; simpl.
  - rewrite app_nil_r. repeat split.
  - destruct (_passes_filter t level) eqn:Hp.
    + specialize (IH (_write_line (clock (clock_reads t)) level msg (tick_clock t))).
      simpl in IH. destruct IH as (Htxt & He & Hs & Hv & Hf).
      rewrite Htxt, He, Hs, Hv, Hf. repeat split.
      rewrite <- app_assoc. simpl. do 2 f_equal.
      apply redrawn_lines_ext; reflexivity.
    + apply IH.
Qed.

Lemma redraw_spec t :
  log_text (_redraw clock t) = redrawn_lines clock t (clock_reads t) (log_entries t) /\
  log_entries (_redraw clock t) = log_entries t /\
  show_debug (_redraw clock t) = show_debug t /\
  debug_var (_redraw clock t) = debug_var t /\
  level_filter (_redraw clock t) = level_filter t.
Proof.
  unfold _redraw.
  destruct (redraw_loop (log_entries t) (set_log_text [] t)) as (Htxt & He & Hs & Hv & Hf).
  rewrite Htxt, He, Hs, Hv, Hf. simpl. repeat split.
  apply redrawn_lines_ext; reflexivity.
Qed.

Lemma append_log_settings level message t :
  show_debug (append_log clock level message t) = show_debug t /\
  debug_var (append_log clock level message t) = debug_var t /\
  level_filter (append_log clock level message t) = level_filter t /\
  log_entries (append_log clock level message t) = log_entries t ++ [(level, message)].
Proof.
  unfold append_log.
  destruct (_passes_filter _ level); simpl; repeat split.
Qed.

(** The cached flag [show_debug] always agrees with the check box. *)
Lemma show_debug_mirrors_check_box t :
  reachable clock t -> show_debug t = debug_var t.
Proof.
  intros [acts ->]. unfold run.
  induction acts as [|a acts IH] using rev_ind; [reflexivity|].
  rewrite foldl_app. simpl.
  set (t := foldl (fun t a => step clock a t) init acts) in *.
  destruct a as [level message| |value| |[| |e]]; simpl.
  - destruct (append_log_settings level message t) as (-> & -> & _). exact IH.
  - unfold _on_debug_toggle.
    destruct (redraw_spec (set_show_debug (debug_var (set_debug_var (negb (debug_var t)) t))
                             (set_debug_var (negb (debug_var t)) t)))
      as (_ & _ & -> & -> & _).
    reflexivity.
  - unfold _on_filter_change.
    destruct (redraw_spec (set_level_filter value t)) as (_ & _ & -> & -> & _).
    exact IH.
  - exact IH.
  - destruct (append_log_settings "WARN" "Log file not found at expected paths" t)
      as (-> & -> & _). exact IH.
  - exact IH.
  - destruct (append_log_settings "ERROR" ("Could not open log file: " +:+ e) t)
      as (-> & -> & _). exact IH.
Qed.

(** C10. In every state the tab can reach, an appended entry is written
    to the visible text exactly when its level is not DEBUG or the Show
    DEBUG box is ticked, and the level filter is ALL or the entry's
    level. A DEBUG entry therefore stays hidden when the filter is DEBUG
    and the box is not ticked. *)
Theorem append_log_written_iff t level message :
  reachable clock t ->
  let shown := (level <> "DEBUG" \/ debug_var t = true) /\
               (level_filter t = "ALL" \/ level_filter t = level) in
  let t' := append_log clock level message t in
  (shown -> log_text t' =
            log_text t ++ [format_line (clock (clock_reads t)) level message]) /\
  (~ shown -> log_text t' = log_text t) /\
  (level = "DEBUG" -> level_filter t = "DEBUG" -> debug_var t = false ->
   log_text t' = log_text t).
Proof.
  intros Hreach shown t'.
  assert (Hiff : _passes_filter t level = true <-> shown).
  { unfold shown. rewrite <- (show_debug_mirrors_check_box t Hreach).
    apply passes_filter_true. }
  assert (Hyes : shown -> log_text t' =
            log_text t ++ [format_line (clock (clock_reads t)) level message]).
  { intros Hs. apply Hiff in Hs. unfold t', append_log.
    rewrite (passes_filter_ext _ t level) by reflexivity. rewrite Hs. reflexivity. }
  assert (Hno : ~ shown -> log_text t' = log_text t).
  { intros Hs. unfold t', append_log.
    rewrite (passes_filter_ext _ t level) by reflexivity.
    destruct (_passes_filter t level); [|reflexivity].
    exfalso. apply Hs, Hiff. reflexivity. }
  split; [exact Hyes|]. split; [exact Hno|].
  intros Hlevel Hfilter Hbox. apply Hno. unfold shown.
  intros [[Hne|Hon] _]; congruence.
Qed.

(** C6, as the code has it. A log entry is a pair of a level and a
    message, and no time is stored with it. The sequence of entries is
    changed only by appending one entry or by clearing it. The line
    written when an entry is appended carries the time read at that
    moment; a redraw writes every entry that passes the filter with the
    time read during the redraw. *)
Theorem log_entries_and_timestamps a t :
  (log_entries (step clock a t) = log_entries t \/
   (exists level message,
      log_entries (step clock a t) = log_entries t ++ [(level, message)]) \/
   log_entries (step clock a t) = []) /\
  (forall level message,
     log_text (append_log clock level message t) =
       if _passes_filter t level
       then log_text t ++ [format_line (clock (clock_reads t)) level message]
       else log_text t) /\
  log_text (_redraw clock t) =
    redrawn_lines clock t (clock_reads t) (log_entries t).
Proof.
  split; [|split].
  - destruct a as [level message| |value| |[| |e]]; simpl.
    + right; left. exists level, message. apply append_log_settings.
    + left. unfold _on_debug_toggle.
      destruct (redraw_spec (set_show_debug (debug_var (set_debug_var (negb (debug_var t)) t))
                               (set_debug_var (negb (debug_var t)) t))) as (_ & -> & _).
      reflexivity.
    + left. unfold _on_filter_change.
      destruct (redraw_spec (set_level_filter value t)) as (_ & -> & _). reflexivity.
    + right; right. reflexivity.
    + right; left. eexists _, _. apply append_log_settings.
    + left. reflexivity.
    + right; left. eexists _, _. apply append_log_settings.
  - intros level message. unfold append_log.
    rewrite (passes_filter_ext _ t level) by reflexivity.
    destruct (_passes_filter t level); reflexivity.
  - apply redraw_spec.
Qed.

End LogsTabProperties.

Lemma append_log_written_iff_witness :
  LogsTab.reachable LogsTab.sample_clock LogsTab.init /\
  LogsTab.log_text (LogsTab.append_log LogsTab.sample_clock "INFO" "hi" LogsTab.init)
  = [LogsTab.format_line "10:00:00" "INFO" "hi"].
Proof.
  assert (Hreach : LogsTab.reachable LogsTab.sample_clock LogsTab.init).
  { exists []. reflexivity. }
  split; [exact Hreach|].
  apply (append_log_written_iff LogsTab.sample_clock LogsTab.init "INFO" "hi" Hreach).
  split; [left; discriminate | left; reflexivity].
Defined.

(** C6, as the specification words it, fails: an entry appended at
    10:00:00 is shown, after the filter menu is used five seconds later,
    with the time 10:00:05, and the time of its capture is gone. *)
Lemma redraw_restamps_entries :
  let t1 := LogsTab.step LogsTab.sample_clock
              (LogsTab.AppendLog "INFO" "hi") LogsTab.init in
  let t2 := LogsTab.step LogsTab.sample_clock (LogsTab.SelectFilter "ALL") t1 in
  LogsTab.log_text t1 = [LogsTab.format_line "10:00:00" "INFO" "hi"] /\
  LogsTab.log_entries t2 = [("INFO", "hi")] /\
  LogsTab.log_text t2 = [LogsTab.format_line "10:00:05" "INFO" "hi"] /\
  ~ In (LogsTab.format_line "10:00:00" "INFO" "hi") (LogsTab.log_text t2).
Proof.
  vm_compute. repeat split. intros [H|[]]. discriminate H.
Qed.

(** ** The server roster *)

Section ServersTabProperties.
Import ServersTab.

Implicit Types (cs : gmap (option string) ServerCard) (k : option string).

Lemma remove_gone_lookup gone : forall cs k,
  remove_gone gone cs !! k = if decide (k ∈ gone) then None else cs !! k.
Proof.
  induction gone as [|g gone IH]; intros cs k; simpl.
  - destruct (decide (k ∈ [])) as [Hin|_]; [|reflexivity].
    apply elem_of_nil in Hin. contradiction.
  - fold (remove_gone gone (delete g cs)). rewrite IH.
    destruct (decide (k ∈ gone)) as [Hin|Hout].
    + rewrite decide_True by (apply elem_of_cons; auto). reflexivity.
    + destruct (decide (k = g)) as [->|Hne].
      * rewrite decide_True by (apply elem_of_cons; auto). apply lookup_delete_eq.
      * rewrite decide_False by (rewrite elem_of_cons; intros [?|?]; contradiction).
        apply lookup_delete_ne. congruence.
Qed.

(** The cards that are left once the vanished ones are popped. *)
Lemma vanished_cards_popped roster cs k :
  remove_gone (elements (dom cs ∖ current_names roster)) cs !! k =
  if decide (k ∈ current_names roster) then cs !! k else None.
Proof.
  rewrite remove_gone_lookup.
  destruct (decide (k ∈ current_names roster)) as [Hin|Hout].
  - rewrite decide_False; [reflexivity|].
    rewrite elem_of_elements, elem_of_difference. tauto.
  - destruct (cs !! k) as [c|] eqn:Hk.
    + rewrite decide_True; [reflexivity|].
      rewrite elem_of_elements, elem_of_difference. split; [|assumption].
      apply elem_of_dom. eauto.
    + destruct (decide _); reflexivity.
Qed.

Lemma refresh_entry_dom cs ops sdata :
  dom (fst (refresh_entry (cs, ops) sdata)) = {[ sd_name sdata ]} ∪ dom cs.
Proof.
  simpl. destruct (cs !! sd_name sdata); simpl; apply dom_insert_L.
Qed.

Lemma refresh_loop_dom roster : forall cs ops,
  dom (fst (foldl refresh_entry (cs, ops) roster)) = dom cs ∪ current_names roster.
Proof.
  unfold current_names.
  induction roster as [|sdata roster IH]; intros cs ops; cbn [foldl fmap list_fmap].
  - simpl. set_solver.
  - pose proof (refresh_entry_dom cs ops sdata) as Hdom.
    destruct (refresh_entry (cs, ops) sdata) as [cs' ops'].
    rewrite IH. simpl in Hdom. rewrite Hdom. set_solver.
Qed.

(** What the second loop of [refresh] adds to the operations: no card is
    destroyed there, and a card is created only for a name of the roster
    that had no card. *)
Lemma refresh_loop_ops roster : forall cs ops,
  exists news,
    snd (foldl refresh_entry (cs, ops) roster) = ops ++ news /\
    (forall k, CardDestroyed k ∉ news) /\
    (forall k, CardCreated k ∈ news -> (k ∉ dom cs) /\ (k ∈ current_names roster)).
Proof.
  unfold current_names.
  induction roster as [|sdata roster IH]; intros cs ops; cbn [foldl fmap list_fmap].
  - exists []. rewrite app_nil_r. split; [reflexivity|].
    split; intros k Hin; apply elem_of_nil in Hin; contradiction.
  - pose proof (refresh_entry_dom cs ops sdata) as Hdom.
    assert (Hop : exists op, snd (refresh_entry (cs, ops) sdata) = ops ++ [op] /\
              (forall k, op <> CardDestroyed k) /\
              (forall k, op = CardCreated k -> (k ∉ dom cs) /\ k = sd_name sdata)).
    { simpl. destruct (cs !! sd_name sdata) eqn:Hk; simpl; eexists;
        (split; [reflexivity|]); split; try discriminate.
      intros k [= <-]. split; [|reflexivity]. apply not_elem_of_dom. exact Hk. }
    destruct (refresh_entry (cs, ops) sdata) as [cs' ops'].
    destruct Hop as (op & Hops & Hnd & Hcr). simpl in Hops, Hdom. subst ops'.
    destruct (IH cs' (ops ++ [op])) as (news & Hsnd & Hnodestroy & Hcreate).
    exists (op :: news). rewrite Hsnd, <- app_assoc. split; [reflexivity|].
    split.
    + intros k Hin. apply elem_of_cons in Hin as [Heq|Hin].
      * exact (Hnd k (eq_sym Heq)).
      * exact (Hnodestroy k Hin).
    + intros k Hin. apply elem_of_cons in Hin as [Heq|Hin].
      * destruct (Hcr k (eq_sym Heq)) as [Hfresh ->]. split; [exact Hfresh|].
        set_solver.
      * destruct (Hcreate k Hin) as [Hfresh Hname]. rewrite Hdom in Hfresh.
        split; set_solver.
Qed.


Lemma refresh_dom roster t :
  dom (cards (fst (refresh roster t))) = current_names roster.
Proof.
  unfold refresh.
  set (cs1 := remove_gone (elements (dom (cards t) ∖ current_names roster)) (cards t)).
  assert (Hcs1 : dom cs1 ⊆ current_names roster).
  { intros k Hk. apply elem_of_dom in Hk as [c Hk]. unfold cs1 in Hk.
    rewrite vanished_cards_popped in Hk.
    destruct (decide (k ∈ current_names roster)); [assumption|discriminate]. }
  destruct roster as [|sdata roster].
  - simpl. unfold current_names in *. simpl in *. set_solver.
  - pose proof (refresh_loop_dom (sdata :: roster) cs1
                  (CardDestroyed <$> elements (dom (cards t) ∖ current_names (sdata :: roster))))
      as Hdom.
    destruct (foldl refresh_entry _ (sdata :: roster)) as [cs' ops'].
    simpl in *. rewrite Hdom. set_solver.
Qed.


(** C5. Whatever cards are shown, a second refresh with the roster of the
    first creates no card and destroys none. *)
Theorem refresh_twice_no_create_no_destroy roster t k :
  let second := snd (refresh roster (fst (refresh roster t))) in
  (CardCreated k ∉ second) /\ (CardDestroyed k ∉ second).
Proof.
  intros second. subst second.
  set (t1 := fst (refresh roster t)).
  assert (Hdom : dom (cards t1) = current_names roster) by apply refresh_dom.
  assert (Hgone : elements (dom (cards t1) ∖ current_names roster) = []).
  { rewrite Hdom, difference_diag_L. apply elements_empty. }
  unfold refresh. rewrite Hgone. simpl remove_gone. cbn [fmap list_fmap].
  destruct roster as [|sdata roster].
  - simpl. split; intros Hin; apply elem_of_nil in Hin; contradiction.
  - destruct (refresh_loop_ops (sdata :: roster) (cards t1) []) as (news & Hsnd & Hnodestroy & Hcreate).
    destruct (foldl refresh_entry _ (sdata :: roster)) as [cs' ops'].
    simpl in Hsnd. simpl. subst ops'. split.
    + intros Hin. destruct (Hcreate k Hin) as [Hfresh Hname].
      rewrite Hdom in Hfresh. contradiction.
    + apply Hnodestroy.
Qed.

End ServersTabProperties.



(** ** The application: port, life cycle and polling *)

Section AppProperties.
Import Py App.

Variable int_max_str_digits : nat.
Variable PROJECT_ROOT : string.

Lemma py_int_raises_only_ValueError s e :
  py_int int_max_str_digits s = Raise e -> e = ValueError.
Proof.
  unfold py_int.
  destruct (split_sign _) as [negative digits].
  destruct (parse_digits digits 0 0 false) as [[v n]|]; [|congruence].
  destruct (_ && _)%bool; congruence.
Qed.

(** [_read_port] never raises. *)
Lemma read_port_entered text :
  _read_port int_max_str_digits text = Return (entered_port int_max_str_digits text).
Proof.
  unfold _read_port, entered_port.
  destruct (py_int int_max_str_digits (strip text)) as [v|e] eqn:Hint.
  - destruct ((1 <=? v) && (v <=? 65535)); reflexivity.
  - rewrite (py_int_raises_only_ValueError _ _ Hint). reflexivity.
Qed.


(** *** Characters *)





Lemma digit_facts c d :
  digit_value c = Some d ->
  py_isspace c = false /\ c_isspace c = false /\
  (code c =? 43) = false /\ (code c =? 45) = false /\ 0 <= d <= 9.
Proof.
  unfold digit_value, py_isspace, c_isspace.
  destruct (Z.ltb_spec (code c) 128) as [Hlo|Hhi].
  - destruct ((48 <=? code c) && (code c <=? 57)) eqn:Hrange; [|discriminate].
    intros [= <-]. repeat split; lia.
  - destruct (db_space c); [discriminate|].
    destruct (db_decimal c) as [x|]; [|discriminate].
    intros [= <-]. repeat split; try lia; destruct x; simpl; lia.
Qed.


(** *** Stripping *)

Lemma lstrip_spaces sp ws l :
  Forall (fun c => sp c = true) ws -> lstrip sp (ws ++ l) = lstrip sp l.
Proof.
  induction 1 as [|c ws Hc _ IH]; simpl; [reflexivity|].
  rewrite Hc. exact IH.
Qed.

Lemma lstrip_no_space sp l r :
  Forall (fun c => sp c = false) l -> l <> [] -> lstrip sp (l ++ r) = l ++ r.
Proof.
  intros Hall Hne. destruct l as [|c l]; [contradiction|].
  apply Forall_cons in Hall as [Hc _]. simpl. rewrite Hc. reflexivity.
Qed.


Lemma last_rev_head (l : list uchar) : last (rev l) = head l.
Proof.
  destruct l as [|c l]; [reflexivity|]. simpl. apply last_snoc.
Qed.

Lemma head_rev_last (l : list uchar) : head (rev l) = last l.
Proof.
  rewrite <- (rev_involutive l) at 2. symmetry. apply last_rev_head.
Qed.

(** Stripping leaves alone a text that neither begins nor ends with a
    blank. *)
Lemma strip_with_id sp l :
  (forall c, head l = Some c -> sp c = false) ->
  (forall c, last l = Some c -> sp c = false) ->
  strip_with sp l = l.
Proof.
  intros Hhead Hlast. unfold strip_with.
  assert (H1 : lstrip sp l = l).
  { destruct l as [|c l']; [reflexivity|]. simpl. rewrite (Hhead c eq_refl). reflexivity. }
  rewrite H1.
  assert (H2 : lstrip sp (rev l) = rev l).
  { destruct (rev l) as [|x r] eqn:Hrev; [reflexivity|].
    simpl. rewrite Hlast; [reflexivity|].
    rewrite <- head_rev_last, Hrev. reflexivity. }
  rewrite H2. apply rev_involutive.
Qed.

(** Stripping removes the blanks around a text that contains none. *)
Lemma strip_with_padded sp ws1 core ws2 :
  Forall (fun c => sp c = true) ws1 -> Forall (fun c => sp c = true) ws2 ->
  (forall c, head core = Some c -> sp c = false) ->
  (forall c, last core = Some c -> sp c = false) ->
  strip_with sp (ws1 ++ core ++ ws2) = core.
Proof.
  intros H1 H2 Hhead Hlast. unfold strip_with.
  rewrite (lstrip_spaces sp ws1) by exact H1.
  destruct core as [|c core'].
  - simpl. rewrite <- (app_nil_r ws2), (lstrip_spaces sp ws2 []) by exact H2.
    reflexivity.
  - assert (Hl : lstrip sp ((c :: core') ++ ws2) = (c :: core') ++ ws2).
    { simpl. rewrite (Hhead c eq_refl). reflexivity. }
    rewrite Hl, rev_app_distr.
    rewrite (lstrip_spaces sp (rev ws2)) by (apply Forall_rev; exact H2).
    assert (Hr : lstrip sp (rev (c :: core')) = rev (c :: core')).
    { destruct (rev (c :: core')) as [|x r] eqn:Hrev; [reflexivity|].
      simpl. rewrite Hlast; [reflexivity|].
      rewrite <- head_rev_last, Hrev. reflexivity. }
    rewrite Hr. apply rev_involutive.
Qed.




(** *** Numerals *)







Lemma limit_ok n :
  ((0 <? int_max_str_digits) && (int_max_str_digits <? n))%nat = false <->
  (int_max_str_digits = 0 \/ n <= int_max_str_digits)%nat.
Proof.
  destruct (Nat.ltb_spec 0 int_max_str_digits);
    destruct (Nat.ltb_spec int_max_str_digits n); simpl; split; intros; try lia;
    try discriminate; try reflexivity.
Qed.




(** *** The integer parser on plain decimal numerals *)

Lemma digit_value_is_digit c :
  is_digit c = true -> digit_value c = Some (default 0 (digit_value c)).
Proof. unfold is_digit. destruct (digit_value c); [reflexivity|discriminate]. Qed.

Lemma parse_digits_all_digits ds : forall acc n prev,
  Forall (fun c => is_digit c = true) ds ->
  ds <> [] \/ prev = true ->
  parse_digits ds acc n prev =
    Some (fold_left (fun acc c => 10 * acc + default 0 (digit_value c)) ds acc,
          (n + length ds)%nat).
Proof.
  induction ds as [|c ds IH]; intros acc n prev Hall Hne; simpl.
  - destruct Hne as [Hne| ->]; [contradiction|].
    rewrite Nat.add_0_r. reflexivity.
  - apply Forall_cons in Hall as [Hc Hall].
    rewrite (digit_value_is_digit c Hc), IH by auto.
    simpl. do 2 f_equal. lia.
Qed.

Lemma digit_not_space c :
  is_digit c = true -> py_isspace c = false /\ c_isspace c = false.
Proof.
  intros H. apply digit_value_is_digit in H.
  destruct (digit_facts c _ H) as (H1 & H2 & _). split; assumption.
Qed.

Lemma digits_ends sp ds :
  Forall (fun c => is_digit c = true) ds ->
  (forall c, is_digit c = true -> sp c = false) ->
  (forall c, head ds = Some c -> sp c = false) /\
  (forall c, last ds = Some c -> sp c = false).
Proof.
  intros Hall Hsp. rewrite Forall_forall in Hall.
  split; intros c Hc; apply Hsp, Hall.
  - destruct ds as [|x r]; [discriminate|]. injection Hc as <-. left.
  - apply last_Some in Hc as [l' ->]. apply elem_of_app. right. left.
Qed.

Lemma split_sign_digits ds :
  Forall (fun c => is_digit c = true) ds -> split_sign ds = (false, ds).
Proof.
  destruct 1 as [|c ds Hc _]; [reflexivity|]. unfold split_sign.
  apply digit_value_is_digit in Hc.
  destruct (digit_facts c _ Hc) as (_ & _ & H43 & H45 & _).
  rewrite H43, H45. reflexivity.
Qed.

(** On a numeral made of decimal digits alone, [int] is the usual
    reading of decimal notation. *)
Lemma py_int_decimal ds :
  ds <> [] -> Forall (fun c => is_digit c = true) ds ->
  (int_max_str_digits = 0 \/ length ds <= int_max_str_digits)%nat ->
  py_int int_max_str_digits ds = Return (decimal_value ds).
Proof.
  intros Hne Hall Hlimit. unfold py_int.
  assert (Hstrip : strip_with c_isspace ds = ds).
  { destruct (digits_ends c_isspace ds Hall) as [Hh Hl].
    - intros c Hc. apply (digit_not_space c Hc).
    - apply strip_with_id; assumption. }
  rewrite Hstrip, (split_sign_digits ds Hall).
  rewrite (parse_digits_all_digits ds 0 0 false Hall (or_introl Hne)). simpl.
  apply limit_ok in Hlimit. rewrite Hlimit. reflexivity.
Qed.

(** X12. For a text made of blanks, a numeral of decimal digits and
    blanks again, the port read is the number the numeral writes when
    it lies from 1 to 65535, and the default port otherwise. *)
Lemma read_port_decimal ws1 ds ws2 :
  Forall (fun c => py_isspace c = true) ws1 ->
  Forall (fun c => py_isspace c = true) ws2 ->
  ds <> [] -> Forall (fun c => is_digit c = true) ds ->
  (int_max_str_digits = 0 \/ length ds <= int_max_str_digits)%nat ->
  _read_port int_max_str_digits (ws1 ++ ds ++ ws2)
  = Return (if (1 <=? decimal_value ds) && (decimal_value ds <=? 65535)
            then decimal_value ds else DEFAULT_PORT).
Proof.
  intros H1 H2 Hne Hall Hlimit. unfold _read_port, strip.
  destruct (digits_ends py_isspace ds Hall) as [Hh Hl].
  { intros c Hc. apply (digit_not_space c Hc). }
  rewrite (strip_with_padded py_isspace ws1 ds ws2); try assumption.
  rewrite (py_int_decimal ds Hne Hall Hlimit).
  destruct ((1 <=? decimal_value ds) && (decimal_value ds <=? 65535)); reflexivity.
Qed.


Lemma run_fetch_frame env w :
  app (run_fetch env w) = app w /\ procs (run_fetch env w) = procs w /\
  threads (run_fetch env w) = threads w /\ timers (run_fetch env w) = timers w /\
  now (run_fetch env w) = now w /\ popen_calls (run_fetch env w) = popen_calls w.
Proof.
  unfold run_fetch. destruct (Polling.fetch _ _ _ _) as [reqs r]. repeat split.
Qed.

Lemma run_fetch_sent env w :
  sent (run_fetch env w) = sent w ++ [HubClient._get_request (client w) "/api/health"].
Proof. reflexivity. Qed.

Lemma poll_health_frame env w :
  app (_poll_health env w) = app w /\ procs (_poll_health env w) = procs w /\
  threads (_poll_health env w) = threads w /\
  timers (_poll_health env w) = timers w ++ [(now w + 3000, PollHealth)] /\
  now (_poll_health env w) = now w /\ popen_calls (_poll_health env w) = popen_calls w.
Proof.
  unfold _poll_health. destruct (hub_running (app w)); [|repeat split].
  destruct (run_fetch_frame env w) as (Ha & Hp & Ht & Hti & Hn & Hc).
  cbn [app procs threads timers now popen_calls set_timers].
  rewrite Hti, Hn. repeat split; assumption.
Qed.

(** C7. A tick of the polling loop sends a health request, the GET of
    [/api/health] on the port of the client, exactly when the running
    flag is set, whatever the handle and the state of the hub process
    are, and always arms the next tick 3000 milliseconds later. *)
Theorem poll_health_tick env w :
  let w' := _poll_health env w in
  let health_request :=
    {| HubClient.req_method := HubClient.GET;
       HubClient.req_url :=
         ("http://127.0.0.1:" +:+ pretty (client_port (app w))) +:+ "/api/health";
       HubClient.req_data := None;
       HubClient.req_headers := [];
       HubClient.req_timeout := 5 |} in
  (hub_running (app w) = true -> sent w' = sent w ++ [health_request]) /\
  (hub_running (app w) = false -> sent w' = sent w /\ scheduled w' = scheduled w) /\
  (sent w' <> sent w <-> hub_running (app w) = true) /\
  timers w' = timers w ++ [(now w + 3000, PollHealth)] /\
  (forall ps p,
     sent (_poll_health env (upd_app (set_hub_process p) (set_procs ps w))) = sent w').
Proof.
  intros w' health_request. subst w'.
  assert (Hsent : sent (_poll_health env w) =
                  if hub_running (app w) then sent w ++ [health_request] else sent w).
  { unfold _poll_health. destruct (hub_running (app w)); reflexivity. }
  split; [|split; [|split; [|split]]].
  - intros Hrun. rewrite Hsent, Hrun. reflexivity.
  - intros Hrun. unfold _poll_health. rewrite Hrun. split; reflexivity.
  - rewrite Hsent. destruct (hub_running (app w)); split; intros H; try reflexivity;
      try discriminate; try congruence.
    intros Heq. apply (f_equal length) in Heq. rewrite length_app in Heq.
    simpl in Heq. lia.
  - apply poll_health_frame.
  - intros ps p. rewrite Hsent. unfold _poll_health.
    cbn [app upd_app set_procs set_hub_process hub_running].
    destruct (hub_running (app w)); reflexivity.
Qed.

(** [_stop_hub] in one piece: a process that is gone, or exits in time
    after [terminate], is waited for; one that does not is sent the
    signal of [kill], and when [kill] raises too its exception leaves
    the method. *)
Lemma stop_hub_eq os w :
  _stop_hub os w =
  let w0 := upd_app (append_log "INFO" "Stopping MCP Hub...") w in
  let finish w1 :=
    upd_app (set_status_label "Stopped")
      (upd_app (set_start_btn_text "Start Hub")
         (upd_app (set_hub_running false) w1)) in
  match hub_process (app w) with
  | Some h =>
      if is_alive h w && (terminate_raises os || negb (exits_in_time os))
      then
        if kill_raises os then (w0, Raise PermissionError)
        else (finish (upd_app (set_hub_process None) (mark_killed h w0)), Return tt)
      else (finish (upd_app (set_hub_process None) (mark_exited h w0)), Return tt)
  | None => (finish w0, Return tt)
  end.
Proof.
  unfold _stop_hub, seq, modify, try_, terminate, wait_timeout, kill, ret, raise, is_alive.
  simpl. destruct (hub_process (app w)) as [h|]; [|reflexivity]. simpl.
  destruct (procs w !! h) as [[| |]|] eqn:Hp; simpl;
    destruct (terminate_raises os); simpl; rewrite ?Hp; simpl;
    destruct (exits_in_time os); simpl; rewrite ?Hp; simpl;
    destruct (kill_raises os); simpl; rewrite ?Hp; reflexivity.
Qed.

Lemma mark_killed_frame h w :
  app (mark_killed h w) = app w /\ timers (mark_killed h w) = timers w /\
  now (mark_killed h w) = now w /\ threads (mark_killed h w) = threads w /\
  popen_calls (mark_killed h w) = popen_calls w /\
  length (procs (mark_killed h w)) = length (procs w).
Proof.
  unfold mark_killed. destruct (procs w !! h) as [[| |]|]; simpl;
    rewrite ?length_insert; repeat split.
Qed.

(** What [_stop_hub] leaves of the world outside the application
    object and the processes. *)
Lemma stop_hub_frame os w :
  let w' := fst (_stop_hub os w) in
  timers w' = timers w /\ now w' = now w /\ threads w' = threads w /\
  popen_calls w' = popen_calls w /\ length (procs w') = length (procs w).
Proof.
  rewrite stop_hub_eq. cbn zeta.
  destruct (hub_process (app w)) as [h|]; [|repeat split].
  destruct (_ && _)%bool; [destruct (kill_raises os)|]; [repeat split| |].
  - destruct (mark_killed_frame h (upd_app (append_log "INFO" "Stopping MCP Hub...") w))
      as (_ & Ht & Hn & Hth & Hc & Hp).
    cbn [fst timers now threads popen_calls procs upd_app].
    rewrite Ht, Hn, Hth, Hc, Hp. repeat split.
  - simpl. repeat split. apply length_insert.
Qed.

Lemma stop_hub_timers os w : timers (fst (_stop_hub os w)) = timers w.
Proof. apply stop_hub_frame. Qed.

Lemma step_timers e w :
  timers (step int_max_str_digits PROJECT_ROOT e w) = timers w \/
  exists late env, e = Tick late env.
Proof.
  destruct e as [os|text|i ok|i text|i|i|h|late env]; simpl;
    [| | | | | | |right; eauto]; left.
  - unfold click. destruct (start_btn_state (app w)); [|reflexivity].
    unfold _toggle_hub. destruct (hub_running (app w)).
    + apply stop_hub_timers.
    + unfold _start_hub. rewrite read_port_entered. reflexivity.
  - reflexivity.
  - unfold thread_popen.
    destruct (threads w !! i) as [[| | |]|]; try reflexivity.
    destruct ok; reflexivity.
  - unfold thread_line.
    destruct (threads w !! i) as [[| | |]|]; try reflexivity.
    destruct (String.eqb text ""); reflexivity.
  - unfold thread_eof.
    destruct (threads w !! i) as [[| | |]|]; try reflexivity.
    destruct (is_alive h w); [reflexivity|].
    destruct (hub_process (app w)); reflexivity.
  - unfold thread_wait_done.
    destruct (threads w !! i) as [[| | |]|]; try reflexivity.
    destruct (is_alive h w); reflexivity.
  - reflexivity.
Qed.

(** The timer is never lost: in every world reached from the start of the
    application exactly one tick is pending. *)
Lemma one_tick_pending es :
  exists due, timers (run int_max_str_digits PROJECT_ROOT es init) = [(due, PollHealth)].
Proof.
  unfold run.
  induction es as [|e es IH] using rev_ind; [exists 3000; reflexivity|].
  rewrite foldl_app. simpl.
  set (w := foldl (fun w e => step int_max_str_digits PROJECT_ROOT e w) init es) in *.
  destruct IH as [due Hdue].
  destruct (step_timers e w) as [Hsame|(late & env & ->)].
  - exists due. rewrite Hsame. exact Hdue.
  - simpl. unfold tick. rewrite Hdue.
    destruct (poll_health_frame env (set_now (due + Z.max 0 late) (set_timers [] w)))
      as (_ & _ & _ & Ht & _).
    rewrite Ht. simpl. eexists. reflexivity.
Qed.

(** *** Processes and signals *)

Lemma is_running_alive h w : is_running h w = true -> is_alive h w = true.
Proof.
  unfold is_running, is_alive. destruct (procs w !! h) as [[| |]|]; congruence.
Qed.

Lemma is_alive_mark_exited h w : is_alive h (mark_exited h w) = false.
Proof.
  unfold is_alive, mark_exited. simpl.
  destruct (decide (h < length (procs w))%nat) as [Hlt|Hge].
  - rewrite list_lookup_insert_eq by exact Hlt. reflexivity.
  - rewrite list_insert_ge by lia. rewrite lookup_ge_None_2 by lia. reflexivity.
Qed.


Lemma procs_mark_killed h w h' :
  procs (mark_killed h w) !! h' =
  if decide (h' = h) then
    match procs w !! h with
    | Some ProcRunning => Some ProcKilled
    | other => other
    end
  else procs w !! h'.
Proof.
  unfold mark_killed. destruct (decide (h' = h)) as [->|Hne].
  - destruct (procs w !! h) as [[| |]|] eqn:Hp; simpl; rewrite ?Hp; try reflexivity.
    apply list_lookup_insert_eq. eapply lookup_lt_Some. exact Hp.
  - destruct (procs w !! h) as [[| |]|]; simpl; try reflexivity.
    apply list_lookup_insert_ne. congruence.
Qed.

(** The signal of [kill] leaves the process alive for the time being. *)
Lemma is_alive_mark_killed h w h' : is_alive h' (mark_killed h w) = is_alive h' w.
Proof.
  unfold is_alive. rewrite procs_mark_killed.
  destruct (decide (h' = h)) as [->|Hne]; [|reflexivity].
  destruct (procs w !! h) as [[| |]|]; reflexivity.
Qed.

Lemma is_running_mark_killed h w : is_running h (mark_killed h w) = false.
Proof.
  unfold is_running. rewrite procs_mark_killed.
  destruct (decide (h = h)) as [_|Hne]; [|congruence].
  destruct (procs w !! h) as [[| |]|]; reflexivity.
Qed.

Lemma is_running_mark_killed_inv h h' w :
  is_running h' (mark_killed h w) = true -> is_running h' w = true /\ h' <> h.
Proof.
  destruct (decide (h' = h)) as [->|Hne].
  - rewrite is_running_mark_killed. discriminate.
  - unfold is_running. rewrite procs_mark_killed.
    destruct (decide (h' = h)); [congruence|]. tauto.
Qed.

Lemma is_alive_mark_exited_inv h h' w :
  is_alive h' (mark_exited h w) = true -> is_alive h' w = true /\ h' <> h.
Proof.
  unfold is_alive, mark_exited. simpl.
  destruct (decide (h' = h)) as [->|Hne].
  - destruct (decide (h < length (procs w))%nat) as [Hlt|Hge].
    + rewrite list_lookup_insert_eq by exact Hlt. discriminate.
    + rewrite list_insert_ge by lia. rewrite lookup_ge_None_2 by lia. discriminate.
  - rewrite list_lookup_insert_ne by congruence. tauto.
Qed.

Lemma is_running_mark_exited_inv h h' w :
  is_running h' (mark_exited h w) = true -> is_running h' w = true /\ h' <> h.
Proof.
  unfold is_running, mark_exited. simpl.
  destruct (decide (h' = h)) as [->|Hne].
  - destruct (decide (h < length (procs w))%nat) as [Hlt|Hge].
    + rewrite list_lookup_insert_eq by exact Hlt. discriminate.
    + rewrite list_insert_ge by lia. rewrite lookup_ge_None_2 by lia. discriminate.
  - rewrite list_lookup_insert_ne by congruence. tauto.
Qed.


(** X19. [destroy] sends the same signals as [_stop_hub] and never
    raises: its call of [kill()] is guarded. *)
Lemma destroy_never_raises os w : snd (destroy os w) = Return tt.
Proof.
  unfold destroy, seq, modify, try_, terminate, wait_timeout, kill, ret, raise.
  destruct (hub_process (app w)) as [h|]; [|reflexivity].
  destruct (is_alive h w) eqn:Ha; simpl;
    destruct (terminate_raises os); simpl; rewrite ?Ha; simpl;
    destruct (exits_in_time os); simpl; rewrite ?Ha; simpl;
    destruct (kill_raises os); simpl; rewrite ?Ha; reflexivity.
Qed.

(** X20. A click while the running flag is set goes to [_stop_hub]: it
    starts no thread, calls [Popen] for no command and creates no
    process. *)
Lemma click_while_running_spawns_nothing os w :
  hub_running (app w) = true ->
  threads (click int_max_str_digits os w) = threads w /\
  popen_calls (click int_max_str_digits os w) = popen_calls w /\
  length (procs (click int_max_str_digits os w)) = length (procs w).
Proof.
  intros Hrun. unfold click.
  destruct (start_btn_state (app w)); [|repeat split].
  unfold _toggle_hub. rewrite Hrun.
  destruct (stop_hub_frame os w) as (_ & _ & Ht & Hc & Hp).
  split; [exact Ht|]. split; [exact Hc|exact Hp].
Qed.

(** While a start is pending the button is disabled and ignores clicks. *)
Lemma click_while_disabled_ignored os w :
  start_btn_state (app w) = disabled -> click int_max_str_digits os w = w.
Proof. intros Hbtn. unfold click. rewrite Hbtn. reflexivity. Qed.

(** *** One process at a time, for unhurried schedules *)

Lemma is_alive_after_spawn h' w :
  is_alive h' (set_procs (procs w ++ [ProcRunning]) w) = true ->
  is_alive h' w = true \/ h' = length (procs w).
Proof.
  unfold is_alive. simpl.
  destruct (decide (h' < length (procs w))%nat) as [Hlt|Hge].
  - rewrite lookup_app_l by exact Hlt. tauto.
  - intros H. right.
    destruct ((procs w ++ [ProcRunning]) !! h') eqn:E; [|discriminate].
    apply lookup_lt_Some in E. rewrite length_app in E. simpl in E. lia.
Qed.

Lemma settled_thread w i t :
  settled w = true -> threads w !! i = Some t -> thread_settled w t = true.
Proof.
  unfold settled. intros Hall Hi.
  rewrite forallb_forall in Hall. apply Hall.
  apply list_elem_of_In. eapply list_elem_of_lookup_2. exact Hi.
Qed.

(** Every step keeps the invariant, a click being taken only in a
    settled world. *)
Lemma step_preserves_inv e w :
  lifecycle_inv w -> (is_click e = true -> settled w = true) ->
  lifecycle_inv (step int_max_str_digits PROJECT_ROOT e w).
Proof.
  intros Hinv Hclick. pose proof Hinv as (HA & HB & HC & HD & HE).
  destruct e as [os|text|i ok|i text|i|i|h|late env]; simpl.
  - (* Click *)
    specialize (Hclick eq_refl). unfold click.
    destruct (start_btn_state (app w)) eqn:Hbtn; [|exact Hinv].
    unfold _toggle_hub. destruct (hub_running (app w)) eqn:Hrun.
    + (* the flag is set: _stop_hub *)
      rewrite stop_hub_eq. cbn zeta.
      set (w0 := upd_app (append_log "INFO" "Stopping MCP Hub...") w).
      assert (HnoStart : forall i, threads w !! i = Some Starting -> False).
      { intros i Hi. destruct (HB i Hi) as (_ & Hr & _). congruence. }
      assert (HnoWait : forall i h, threads w !! i = Some (Waiting h) -> False).
      { intros i h Hi. pose proof (settled_thread w i _ Hclick Hi). discriminate. }
      destruct (hub_process (app w)) as [h|] eqn:Hproc.
      * destruct (_ && _)%bool; [destruct (kill_raises os)|]; cbn [fst].
        -- (* [kill] raised: only the log has changed *)
           split; [|split; [|split; [|split]]].
           ++ intros h' Ha. simpl. rewrite ?Hrun, ?Hproc. apply (HA h' Ha).
           ++ intros i Hi. exfalso. exact (HnoStart i Hi).
           ++ intros i h' Hi. exfalso. exact (HnoWait i h' Hi).
           ++ exact HD.
           ++ exact HE.
        -- (* the process was sent the signal of [kill] *)
           destruct (mark_killed_frame h w0) as (_ & _ & _ & Hth & _ & _).
           split; [|split; [|split; [|split]]].
           ++ intros h' Ha. exfalso.
              change (is_running h' (mark_killed h w0) = true) in Ha.
              apply is_running_mark_killed_inv in Ha as [Ha Hne].
              destruct (HA h' Ha) as [_ Hp]. congruence.
           ++ intros i Hi. exfalso. apply (HnoStart i).
              change (threads (mark_killed h w0) !! i = Some Starting) in Hi.
              rewrite Hth in Hi. exact Hi.
           ++ intros i h' Hi. exfalso. apply (HnoWait i h').
              change (threads (mark_killed h w0) !! i = Some (Waiting h')) in Hi.
              rewrite Hth in Hi. exact Hi.
           ++ intros h' Ha.
              change (is_alive h' (mark_killed h w0) = true) in Ha.
              rewrite is_alive_mark_killed in Ha.
              destruct (HD h' Ha) as [i Hi]. exists i.
              change (threads (mark_killed h w0) !! i = Some (Streaming h')).
              rewrite Hth. exact Hi.
           ++ intros h1 h2 H1 H2.
              change (is_alive h1 (mark_killed h w0) = true) in H1.
              change (is_alive h2 (mark_killed h w0) = true) in H2.
              rewrite is_alive_mark_killed in H1, H2. exact (HE h1 h2 H1 H2).
        -- (* the process has exited *)
           split; [|split; [|split; [|split]]].
           ++ intros h' Ha. exfalso.
              apply (is_running_mark_exited_inv h h' w0) in Ha as [Ha Hne].
              destruct (HA h' Ha) as [_ Hp]. congruence.
           ++ intros i Hi. exfalso. exact (HnoStart i Hi).
           ++ intros i h' Hi. exfalso. exact (HnoWait i h' Hi).
           ++ intros h' Ha.
              apply (is_alive_mark_exited_inv h h' w0) in Ha as [Ha _].
              exact (HD h' Ha).
           ++ intros h1 h2 H1 H2.
              apply (is_alive_mark_exited_inv h h1 w0) in H1 as [H1 _].
              apply (is_alive_mark_exited_inv h h2 w0) in H2 as [H2 _].
              exact (HE h1 h2 H1 H2).
      * cbn [fst]. split; [|split; [|split; [|split]]].
        -- intros h' Ha. exfalso. destruct (HA h' Ha) as [_ Hp]. congruence.
        -- intros i Hi. exfalso. exact (HnoStart i Hi).
        -- intros i h' Hi. exfalso. exact (HnoWait i h' Hi).
        -- exact HD.
        -- exact HE.
    + (* the flag is clear: _start_hub *)
      unfold _start_hub. rewrite read_port_entered. simpl.
      assert (HnoAlive : forall h, is_alive h w = true -> False).
      { intros h Hh. destruct (HD h Hh) as [i Hi].
        pose proof (settled_thread w i _ Hclick Hi) as Hs. simpl in Hs.
        destruct (HA h Hs) as [Hr _]. congruence. }
      assert (HnoStart : forall i, threads w !! i = Some Starting -> False).
      { intros i Hi. destruct (HB i Hi) as (Hd & _). congruence. }
      assert (Hfin : forall j t, threads w !! j = Some t -> t = Finished).
      { intros j t Hj. pose proof (settled_thread w j t Hclick Hj) as Hs.
        destruct t as [|h|h|]; simpl in Hs; try discriminate; try reflexivity.
        - exfalso. exact (HnoStart j Hj).
        - exfalso. exact (HnoAlive h (is_running_alive h w Hs)). }
      split; [|split; [|split; [|split]]].
      * intros h Ha. exfalso. exact (HnoAlive h (is_running_alive h w Ha)).
      * intros i Hi. simpl in *. split; [reflexivity|]. split; [exact Hrun|].
        intros j t Hj Hne.
        apply lookup_app_Some in Hj as [Hj|[Hlen Hj]]; [exact (Hfin j t Hj)|].
        apply lookup_app_Some in Hi as [Hi|[Hlen' Hi]];
          [exfalso; exact (HnoStart i Hi)|].
        apply lookup_lt_Some in Hj, Hi. simpl in *. lia.
      * intros i h Hi. simpl in *.
        apply lookup_app_Some in Hi as [Hi|[Hlen Hi]]; [exact (HC i h Hi)|].
        destruct (i - length (threads w))%nat; simpl in Hi; discriminate.
      * intros h Ha. exfalso. exact (HnoAlive h Ha).
      * intros h1 h2 H1 _. exfalso. exact (HnoAlive h1 H1).
  - (* TypePort *) exact Hinv.
  - (* ThreadPopen *)
    unfold thread_popen. destruct (threads w !! i) as [[| | |]|] eqn:Hi;
      try exact Hinv.
    destruct (HB i Hi) as (Hbtn & Hrun & Hothers).
    assert (HnoAlive : forall h, is_alive h w = true -> False).
    { intros h Hh. destruct (HD h Hh) as [j Hj].
      destruct (decide (j = i)) as [->|Hne]; [congruence|].
      specialize (Hothers j _ Hj Hne). discriminate. }
    assert (Hlt : (i < length (threads w))%nat) by (eapply lookup_lt_Some; eauto).
    assert (Hrest : forall j t new, <[i := new]> (threads w) !! j = Some t ->
              t = new \/ t = Finished).
    { intros j t new Hj. destruct (decide (j = i)) as [->|Hne].
      - rewrite list_lookup_insert_eq in Hj by exact Hlt. left. congruence.
      - rewrite list_lookup_insert_ne in Hj by congruence. right. eauto. }
    assert (Hnew : forall h, is_alive h (set_procs (procs w ++ [ProcRunning]) w) = true ->
              h = length (procs w)).
    { intros h Ha. apply is_alive_after_spawn in Ha as [Ha|Ha];
        [exfalso; exact (HnoAlive h Ha)|exact Ha]. }
    destruct ok; simpl.
    + split; [|split; [|split; [|split]]].
      * intros h Ha. simpl. split; [reflexivity|]. f_equal. symmetry.
        apply Hnew. apply is_running_alive. exact Ha.
      * intros j Hj. simpl in Hj. destruct (Hrest _ _ _ Hj); discriminate.
      * intros j h Hj. simpl in Hj. destruct (Hrest _ _ _ Hj); discriminate.
      * intros h Ha. exists i. simpl.
        rewrite (Hnew h Ha). apply list_lookup_insert_eq. exact Hlt.
      * intros h1 h2 H1 H2. rewrite (Hnew h1 H1), (Hnew h2 H2). reflexivity.
    + split; [|split; [|split; [|split]]].
      * intros h Ha. exfalso. exact (HnoAlive h (is_running_alive h w Ha)).
      * intros j Hj. simpl in Hj. destruct (Hrest _ _ _ Hj); discriminate.
      * intros j h Hj. simpl in Hj. destruct (Hrest _ _ _ Hj); discriminate.
      * intros h Ha. exfalso. exact (HnoAlive h Ha).
      * intros h1 h2 H1 _. exfalso. exact (HnoAlive h1 H1).
  - (* ThreadLine *)
    unfold thread_line. destruct (threads w !! i) as [[| | |]|]; try exact Hinv.
    destruct (String.eqb text ""); exact Hinv.
  - (* ThreadEof *)
    unfold thread_eof. destruct (threads w !! i) as [[|h| |]|] eqn:Hi;
      try exact Hinv.
    destruct (is_alive h w) eqn:Hh; [exact Hinv|].
    assert (Hlt : (i < length (threads w))%nat) by (eapply lookup_lt_Some; eauto).
    assert (HnoStart : forall j, threads w !! j = Some Starting -> False).
    { intros j Hj. destruct (HB j Hj) as (_ & _ & Hothers).
      assert (j <> i) by congruence.
      specialize (Hothers i _ Hi ltac:(congruence)). discriminate. }
    assert (Hold : forall j t new, <[i := new]> (threads w) !! j = Some t ->
              (j = i /\ t = new) \/ (j <> i /\ threads w !! j = Some t)).
    { intros j t new Hj. destruct (decide (j = i)) as [->|Hne].
      - rewrite list_lookup_insert_eq in Hj by exact Hlt. left. split; congruence.
      - rewrite list_lookup_insert_ne in Hj by congruence. right. auto. }
    assert (Hreader : forall new h0, is_alive h0 w = true ->
              exists j, <[i := new]> (threads w) !! j = Some (Streaming h0)).
    { intros new h0 Ha. destruct (HD h0 Ha) as [j Hj]. exists j.
      rewrite list_lookup_insert_ne; [exact Hj|].
      intros <-. rewrite Hi in Hj. injection Hj as <-. congruence. }
    destruct (hub_process (app w)) as [h'|] eqn:Hproc.
    + split; [|split; [|split; [|split]]]; simpl.
      * intros h0 Ha. rewrite ?Hproc. apply (HA h0 Ha).
      * intros j Hj. exfalso.
        destruct (Hold _ _ _ Hj) as [[_ ?]|[_ ?]]; [discriminate|eauto].
      * intros j h0 Hj. rewrite Hproc.
        destruct (Hold _ _ _ Hj) as [[_ ?]|[_ ?]]; [congruence|eauto].
      * intros h0 Ha. exact (Hreader _ h0 Ha).
      * exact HE.
    + split; [|split; [|split; [|split]]]; simpl.
      * intros h0 Ha. exfalso. destruct (HA h0 Ha) as [_ Hp]. congruence.
      * intros j Hj. exfalso.
        destruct (Hold _ _ _ Hj) as [[_ ?]|[_ ?]]; [discriminate|eauto].
      * intros j h0 Hj. rewrite Hproc.
        destruct (Hold _ _ _ Hj) as [[_ ?]|[_ ?]]; [discriminate|eauto].
      * intros h0 Ha. exact (Hreader _ h0 Ha).
      * exact HE.
  - (* ThreadWaitDone *)
    unfold thread_wait_done. destruct (threads w !! i) as [[| |h'|]|] eqn:Hi;
      try exact Hinv.
    destruct (is_alive h' w) eqn:Hh; [exact Hinv|].
    assert (Hlt : (i < length (threads w))%nat) by (eapply lookup_lt_Some; eauto).
    assert (HnoStart : forall j, threads w !! j = Some Starting -> False).
    { intros j Hj. destruct (HB j Hj) as (_ & _ & Hothers).
      assert (j <> i) by congruence.
      specialize (Hothers i _ Hi ltac:(congruence)). discriminate. }
    assert (Hold : forall j t new, <[i := new]> (threads w) !! j = Some t ->
              (j = i /\ t = new) \/ (j <> i /\ threads w !! j = Some t)).
    { intros j t new Hj. destruct (decide (j = i)) as [->|Hne].
      - rewrite list_lookup_insert_eq in Hj by exact Hlt. left. split; congruence.
      - rewrite list_lookup_insert_ne in Hj by congruence. right. auto. }
    assert (HnoRun : forall h, is_running h w = true -> False).
    { intros h Ha. destruct (HA h Ha) as [_ Hp].
      rewrite (HC i h' Hi) in Hp. injection Hp as ->.
      apply is_running_alive in Ha. congruence. }
    split; [|split; [|split; [|split]]]; simpl.
    * intros h0 Ha. exfalso. exact (HnoRun h0 Ha).
    * intros j Hj. exfalso.
      destruct (Hold _ _ _ Hj) as [[_ ?]|[_ ?]]; [discriminate|eauto].
    * intros j h0 Hj.
      destruct (Hold _ _ _ Hj) as [[_ ?]|[_ ?]]; [discriminate|eauto].
    * intros h0 Ha. destruct (HD h0 Ha) as [j Hj]. exists j.
      rewrite list_lookup_insert_ne; [exact Hj|].
      intros <-. rewrite Hi in Hj. discriminate.
    * exact HE.
  - (* ProcExit *)
    split; [|split; [|split; [|split]]]; simpl.
    + intros h0 Ha. apply is_running_mark_exited_inv in Ha as [Ha _]. apply (HA h0 Ha).
    + exact HB.
    + exact HC.
    + intros h0 Ha. apply is_alive_mark_exited_inv in Ha as [Ha _]. exact (HD h0 Ha).
    + intros h1 h2 H1 H2.
      apply is_alive_mark_exited_inv in H1 as [H1 _].
      apply is_alive_mark_exited_inv in H2 as [H2 _]. exact (HE h1 h2 H1 H2).
  - (* Tick *)
    unfold tick. destruct (timers w) as [|[due []] rest]; [exact Hinv|].
    destruct (poll_health_frame env (set_now (due + Z.max 0 late) (set_timers rest w)))
      as (Ha & Hp & Ht & _).
    unfold lifecycle_inv, is_running, is_alive. rewrite Ha, Hp, Ht. exact Hinv.
Qed.

Lemma init_inv : lifecycle_inv init.
Proof.
  split; [|split; [|split; [|split]]].
  - intros h Ha. destruct h; discriminate.
  - intros i Hi. destruct i; discriminate.
  - intros i h Hi. destruct i; discriminate.
  - intros h Ha. destruct h; discriminate.
  - intros h h' Ha. destruct h; discriminate.
Qed.

Lemma run_preserves_inv es : forall w,
  lifecycle_inv w -> unhurried int_max_str_digits PROJECT_ROOT es w = true ->
  lifecycle_inv (run int_max_str_digits PROJECT_ROOT es w).
Proof.
  induction es as [|e es IH]; intros w Hinv Hsched; [exact Hinv|].
  simpl in Hsched. apply andb_true_iff in Hsched as [Hclick Hrest].
  apply (IH _ (step_preserves_inv e w Hinv
                 ltac:(intros Hc; rewrite Hc in Hclick; exact Hclick)) Hrest).
Qed.

Lemma inv_at_most_one_alive w :
  lifecycle_inv w -> (length (alive_handles w) <= 1)%nat.
Proof.
  intros (_ & _ & _ & _ & HE).
  assert (Hnodup : NoDup (alive_handles w)).
  { unfold alive_handles. apply NoDup_ListNoDup, List.NoDup_filter, List.seq_NoDup. }
  assert (Hall : forall h, h ∈ alive_handles w -> is_alive h w = true).
  { intros h Hin. apply list_elem_of_In, filter_In in Hin as [_ Ha]. exact Ha. }
  destruct (alive_handles w) as [|a [|b l]]; simpl; try lia.
  exfalso.
  assert (a = b).
  { apply HE; apply Hall; [left|right; left]. }
  subst b. apply NoDup_cons in Hnodup as [Hnot _]. apply Hnot. left.
Qed.

(** X21. As long as the button is clicked only once the reader threads
    are settled, at most one hub process is alive at any time. *)
Lemma unhurried_one_process es :
  unhurried int_max_str_digits PROJECT_ROOT es init = true ->
  (length (alive_handles (run int_max_str_digits PROJECT_ROOT es init)) <= 1)%nat.
Proof.
  intros Hsched. apply inv_at_most_one_alive, run_preserves_inv; [apply init_inv|exact Hsched].
Qed.
End AppProperties.

(** C1. The toggle does not keep the hub processes down to one. After
    start, stop and start again, the reader thread of the first process
    reaches [self.hub_process.wait()] while the field is [None]; its
    [except] branch enables the button although a start is pending and
    the running flag is still clear, so the next click starts the hub a
    second time: two processes are alive, and the handle of the first of
    them is overwritten. *)
Theorem stale_reader_double_spawn :
  let before := App.run 4300 "/opt/mcp-hub" (take 5 App.stale_reader_trace) App.init in
  let after := App.run 4300 "/opt/mcp-hub" App.stale_reader_trace App.init in
  App.threads before = [App.Finished; App.Starting] /\
  App.hub_running (App.app before) = false /\
  App.start_btn_state (App.app before) = App.normal /\
  App.threads after = [App.Finished; App.Streaming 1%nat; App.Streaming 2%nat] /\
  App.alive_handles after = [1; 2]%nat /\
  App.hub_process (App.app after) = Some 2%nat.
Proof. vm_compute. repeat split. Qed.

(** C3. A stop request does not always clear the handle: when the
    process is alive and both [terminate()] and [kill()] raise, the
    exception of [kill()] leaves [_stop_hub] before the handle and the
    running flag are reset. *)
Theorem stop_hub_unsignalable_keeps_handle :
  let w := App.run 4300 "/opt/mcp-hub"
             [App.Click App.graceful; App.ThreadPopen 0 true] App.init in
  App.hub_process (App.app w) = Some 0%nat /\
  App.is_alive 0%nat w = true /\
  snd (App._stop_hub App.unsignalable w) = Py.Raise Py.PermissionError /\
  App.hub_process (App.app (fst (App._stop_hub App.unsignalable w))) = Some 0%nat /\
  App.hub_running (App.app (fst (App._stop_hub App.unsignalable w))) = true.
Proof. vm_compute. repeat split. Qed.

(** [_read_port] on some texts of the port entry, with the digit limit
    of Python 3.11. *)
Example read_port_examples :
  map (fun s => App._read_port 4300 (App.text_of_string s))
    [ "8080"; " 80 "; "65535"; "1_000"; "+443"; "0080";
      "0"; "65536"; "-1"; ""; "abc"; "80 80"; "1__0"; "_1"; "0x50"; "8080.0";
      "+ 80"; "80_"; "--80" ]
  = map Py.Return
    [ 8080; 80; 65535; 1000; 443; 80;
      3000; 3000; 3000; 3000; 3000; 3000; 3000; 3000; 3000; 3000;
      3000; 3000; 3000 ].
Proof. vm_compute. reflexivity. Qed.

(** Digits and white space outside ASCII are read too: a no-break space
    followed by the Arabic-Indic digits of 8080 gives port 8080, and a
    text that mixes them with ASCII digits is read as well. *)
Example read_port_unicode :
  App._read_port 4300 App.arabic_8080 = Py.Return 8080 /\
  App._read_port 4300 (App.arabic_indic App.D4 :: App.text_of_string "43")
    = Py.Return 443 /\
  App._read_port 4300 (App.text_of_string "80" ++ [App.nbsp] ++ App.text_of_string "80")
    = Py.Return 3000.
Proof. vm_compute. repeat split. Qed.

(** [str.strip] removes more than [int] skips: the file separator,
    U+001C, before a numeral is stripped, while [int] alone rejects the
    text. *)
Example strip_before_int :
  let text := App.ascii_char (ascii_of_nat 28) :: App.text_of_string "80" in
  App._read_port 4300 text = Py.Return 80 /\
  App.py_int 4300 text = Py.Raise Py.ValueError /\
  App.py_int 4300 (App.nbsp :: App.text_of_string " 80 ") = Py.Return 80.
Proof. vm_compute. repeat split. Qed.

(** The schedule with the stale reader thread is a hurried one, and a
    patient one keeps a single process. *)
Example stale_reader_trace_hurried :
  App.unhurried 4300 "/opt/mcp-hub" App.stale_reader_trace App.init = false.
Proof. vm_compute. reflexivity. Qed.

Example patient_trace_one_process :
  App.unhurried 4300 "/opt/mcp-hub" App.patient_trace App.init = true /\
  App.alive_handles (App.run 4300 "/opt/mcp-hub" App.patient_trace App.init) = [1%nat].
Proof. vm_compute. split; reflexivity. Qed.

(** A process that ignores [terminate] for five seconds is sent the
    signal of [kill], and the handle is cleared; the process is still
    alive when [_stop_hub] returns, and gone once it has exited. *)
Example stop_hub_timeout_escalates :
  let w := App.run 4300 "/opt/mcp-hub"
             [App.Click App.graceful; App.ThreadPopen 0 true] App.init in
  let w' := fst (App._stop_hub App.stubborn w) in
  snd (App._stop_hub App.stubborn w) = Py.Return tt /\
  App.hub_process (App.app w') = None /\
  App.hub_running (App.app w') = false /\
  App.procs w' = [App.ProcKilled] /\
  App.alive_handles w' = [0%nat] /\
  App.alive_handles (App.step 4300 "/opt/mcp-hub" (App.ProcExit 0%nat) w') = [].
Proof. vm_compute. repeat split. Qed.

(** A click that waits for the killed process to exit and for its
    reader thread to finish is unhurried and keeps a single process; a
    click right after the kill is hurried, and two processes are alive
    once its [Popen] has returned. *)
Example killed_trace_one_process :
  App.unhurried 4300 "/opt/mcp-hub" App.killed_trace App.init = true /\
  App.alive_handles (App.run 4300 "/opt/mcp-hub" App.killed_trace App.init) = [1%nat].
Proof. vm_compute. split; reflexivity. Qed.

Example click_right_after_kill :
  let trace :=
    [ App.Click App.graceful; App.ThreadPopen 0 true;
      App.Click App.stubborn; App.Click App.graceful; App.ThreadPopen 1 true ] in
  App.unhurried 4300 "/opt/mcp-hub" trace App.init = false /\
  App.alive_handles (App.run 4300 "/opt/mcp-hub" trace App.init) = [0; 1]%nat.
Proof. vm_compute. split; reflexivity. Qed.

(** A tick in a world where the hub runs on the default port, with a hub
    that answers: one request is sent, and its empty payload schedules no
    refresh. *)
Example poll_health_running_world :
  let w' := App._poll_health Polling.healthy App.running_world in
  App.sent w' = [HubClient._get_request HubClient.default_client "/api/health"] /\
  HubClient.req_url (HubClient._get_request HubClient.default_client "/api/health")
    = "http://127.0.0.1:3000/api/health" /\
  App.scheduled w' = [] /\
  App.sent (App._poll_health Polling.healthy App.init) = [].
Proof. vm_compute. repeat split. Qed.

(** * Further properties *)

(** ** The HTTP client *)

Section HubClientMore.
Import Py HubClient.

Variable network : request -> http_outcome.
Variable utf8_decode : string -> option string.
Variable json_loads : string -> option json.

Lemma guarded_round_trip_succeeds req status body s v :
  network req = Response status body -> 200 <= status < 300 ->
  utf8_decode body = Some s -> json_loads s = Some v ->
  try_except
    (do body <- urlopen network req; do s <- decode utf8_decode body; loads json_loads s)
    (Return PyNone) = Return v.
Proof.
  intros Hnet Hcode Hdec Hjson. unfold urlopen. rewrite Hnet.
  replace ((200 <=? status) && (status <? 300)) with true by lia.
  cbn [bind]. unfold decode. rewrite Hdec. cbn [bind]. unfold loads.
  rewrite Hjson. reflexivity.
Qed.

Lemma guarded_round_trip_interrupted req e :
  network req = TransportError e -> is_Exception e = false ->
  try_except
    (do body <- urlopen network req; do s <- decode utf8_decode body; loads json_loads s)
    (Return PyNone) = Raise e.
Proof.
  intros Hnet Hexc. unfold urlopen. rewrite Hnet. simpl. rewrite Hexc. reflexivity.
Qed.

(** X1. Every operation of the client returns the decoded JSON value of
    the body when the hub answers with a status from 200 to 299 and a
    body that decodes. *)
Theorem api_success_returns_payload c op req status body s v :
  fst (run_op network utf8_decode json_loads c op) = [req] ->
  network req = Response status body -> 200 <= status < 300 ->
  utf8_decode body = Some s -> json_loads s = Some v ->
  snd (run_op network utf8_decode json_loads c op) = Return v.
Proof.
  intros Hreq Hnet Hcode Hdec Hjson.
  destruct op; simpl in *; injection Hreq as <-;
    eapply guarded_round_trip_succeeds; eassumption.
Qed.

(** X2. The handler of the client is [except Exception]: an exception
    outside that class met during the round trip, such as
    [KeyboardInterrupt], is not turned into [None] and reaches the
    caller. *)
Theorem api_lets_base_exceptions_through c op req e :
  fst (run_op network utf8_decode json_loads c op) = [req] ->
  network req = TransportError e -> is_Exception e = false ->
  snd (run_op network utf8_decode json_loads c op) = Raise e.
Proof.
  intros Hreq Hnet Hexc.
  destruct op; simpl in *; injection Hreq as <-;
    eapply guarded_round_trip_interrupted; eassumption.
Qed.

End HubClientMore.

(** ** The log viewer *)

Section LogsTabMore.
Import LogsTab.

Variable clock : nat -> string.

Lemma visible_entries_ext t1 t2 :
  show_debug t1 = show_debug t2 -> level_filter t1 = level_filter t2 ->
  log_entries t1 = log_entries t2 ->
  visible_entries t1 = visible_entries t2.
Proof.
  intros Hs Hf He. unfold visible_entries. rewrite He.
  apply List.filter_ext. intros e. apply passes_filter_ext; assumption.
Qed.

(** The lines of a redraw, as time stamps put on the filtered entries. *)
Lemma redrawn_lines_zip t es : forall n,
  let shown := List.filter (fun e => _passes_filter t (fst e)) es in
  redrawn_lines clock t n es =
    zip_with (fun ts e => format_line ts (fst e) (snd e))
      (clock <$> seq n (length shown)) shown.
Proof.
  induction es as [|[level msg] es IH]; intros n; simpl; [reflexivity|].
  destruct (_passes_filter t level); simpl; [f_equal|]; apply IH.
Qed.

Lemma redraw_shows t : shows (_redraw clock t) (visible_entries (_redraw clock t)).
Proof.
  destruct (redraw_spec clock t) as (Htxt & He & Hs & _ & Hf).
  rewrite (visible_entries_ext _ t Hs Hf He).
  exists (clock <$> seq (clock_reads t) (length (visible_entries t))).
  split.
  - rewrite length_fmap, length_seq. reflexivity.
  - rewrite Htxt. apply redrawn_lines_zip.
Qed.

Lemma append_log_shows level message t :
  shows t (visible_entries t) ->
  shows (append_log clock level message t)
        (visible_entries (append_log clock level message t)).
Proof.
  intros (stamps & Hlen & Htxt).
  destruct (append_log_settings clock level message t) as (Hs & _ & Hf & He).
  assert (Hvis : visible_entries (append_log clock level message t) =
            visible_entries t ++
            (if _passes_filter t level then [(level, message)] else [])).
  { unfold visible_entries at 1. rewrite He, List.filter_app. f_equal.
    - apply List.filter_ext. intros e. apply passes_filter_ext; assumption.
    - simpl. rewrite (passes_filter_ext _ t level Hs Hf).
      destruct (_passes_filter t level); reflexivity. }
  assert (Htext : log_text (append_log clock level message t) =
            if _passes_filter t level
            then log_text t ++ [format_line (clock (clock_reads t)) level message]
            else log_text t).
  { unfold append_log. rewrite (passes_filter_ext _ t level) by reflexivity.
    destruct (_passes_filter t level); reflexivity. }
  unfold shows. rewrite Hvis, Htext. destruct (_passes_filter t level).
  - exists (stamps ++ [clock (clock_reads t)]). split.
    + rewrite !length_app, Hlen. reflexivity.
    + rewrite zip_with_app by exact Hlen. rewrite Htxt. reflexivity.
  - exists stamps. rewrite app_nil_r. split; assumption.
Qed.

(** In every state the tab can reach, the text box shows the entries that
    pass the filter as it is set, and only them, in the order of the log. *)
Lemma view_follows_filter t :
  reachable clock t -> shows t (visible_entries t).
Proof.
  intros [acts ->]. unfold run.
  induction acts as [|a acts IH] using rev_ind.
  - exists []. split; reflexivity.
  - rewrite foldl_app. simpl.
    set (t := foldl (fun t a => step clock a t) init acts) in *.
    destruct a as [level message| |value| |[| |e]]; simpl.
    + apply append_log_shows, IH.
    + apply redraw_shows.
    + apply redraw_shows.
    + exists []. split; reflexivity.
    + apply append_log_shows, IH.
    + exact IH.
    + apply append_log_shows, IH.
Qed.

(** X3. In every state the log tab can reach, the text box shows one
    line for each entry that passes the filter as it is set, in the order
    of the log, and nothing else. *)
Theorem log_view_shows_filtered_entries t :
  reachable clock t -> shows t (visible_entries t).
Proof. apply view_follows_filter. Qed.

(** X4. With the level menu on DEBUG and the Show DEBUG box not ticked
    the text box is empty, whatever has been logged. *)
Theorem debug_filter_without_debug_box_shows_nothing t :
  reachable clock t ->
  level_filter t = "DEBUG" -> debug_var t = false ->
  log_text t = [].
Proof.
  intros Hreach Hfilter Hbox.
  destruct (view_follows_filter t Hreach) as (stamps & Hlen & Htxt).
  assert (Hnone : visible_entries t = []).
  { unfold visible_entries.
    induction (log_entries t) as [|[level msg] es IH]; simpl; [reflexivity|].
    replace (_passes_filter t level) with false; [exact IH|].
    symmetry. unfold _passes_filter.
    rewrite (show_debug_mirrors_check_box clock t Hreach), Hbox, Hfilter.
    destruct (String.eqb_spec level "DEBUG") as [->|Hne]; simpl; [reflexivity|].
    destruct (String.eqb_spec level "DEBUG"); [contradiction|reflexivity]. }
  rewrite Htxt, Hnone. destruct stamps; reflexivity.
Qed.

(** X5. Filtering loses no entry: once the Show DEBUG box is ticked,
    choosing ALL in the level menu shows every entry logged since the
    last clear, and the log itself is not changed. *)
Theorem select_all_with_debug_shows_every_entry t :
  reachable clock t -> debug_var t = true ->
  shows (step clock (SelectFilter "ALL") t) (log_entries t) /\
  log_entries (step clock (SelectFilter "ALL") t) = log_entries t.
Proof.
  intros Hreach Hbox. simpl. unfold _on_filter_change.
  pose proof (redraw_shows (set_level_filter "ALL" t)) as Hshow.
  destruct (redraw_spec clock (set_level_filter "ALL" t)) as (_ & He & Hs & _ & Hf).
  split; [|exact He].
  replace (visible_entries (_redraw clock (set_level_filter "ALL" t)))
    with (log_entries t) in Hshow; [exact Hshow|].
  unfold visible_entries. rewrite He. simpl.
  symmetry. apply forallb_filter_id, forallb_forall. intros [level msg] _.
  unfold _passes_filter. rewrite Hs, Hf. simpl.
  rewrite (show_debug_mirrors_check_box clock t Hreach), Hbox.
  rewrite andb_false_r. reflexivity.
Qed.

End LogsTabMore.

(** ** The server roster and its widgets *)

Section ServersTabMore.
Import ServersTab.

Implicit Types (cs : gmap (option string) ServerCard) (k : option string).

Lemma last_named_snoc k roster sdata :
  last_named k (roster ++ [sdata]) =
  if decide (sd_name sdata = k) then Some sdata else last_named k roster.
Proof.
  unfold last_named. rewrite List.filter_app. simpl.
  destruct (decide (sd_name sdata = k)) as [Heq|Hne].
  - rewrite bool_decide_eq_true_2 by exact Heq. apply last_snoc.
  - rewrite bool_decide_eq_false_2 by exact Hne. rewrite app_nil_r. reflexivity.
Qed.

Lemma refresh_entry_lookup cs ops sdata k :
  fst (refresh_entry (cs, ops) sdata) !! k =
  if decide (sd_name sdata = k)
  then Some (_build (match cs !! sd_name sdata with
                     | Some card => server_name card
                     | None => default "unknown" (sd_name sdata)
                     end) sdata)
  else cs !! k.
Proof.
  simpl. destruct (cs !! sd_name sdata) as [card|] eqn:Hk; simpl;
    destruct (decide (sd_name sdata = k)) as [<-|Hne];
    rewrite ?lookup_insert_eq, ?lookup_insert_ne by exact Hne; reflexivity.
Qed.

(** A card the second loop of [refresh] leaves under a name of the roster
    has been built from the last entry of that name. *)
Lemma refresh_loop_content cs ops roster : forall k c,
  fst (foldl refresh_entry (cs, ops) roster) !! k = Some c ->
  k ∈ current_names roster ->
  exists sdata,
    last_named k roster = Some sdata /\
    server_data c = sdata /\
    tools_list c = ToolsList_init (sd_tools sdata) /\
    enabled_var c = negb (sd_disabled sdata).
Proof.
  unfold current_names.
  induction roster as [|sdata roster IH] using rev_ind; intros k c Hk Hin.
  - simpl in Hin. set_solver.
  - rewrite foldl_app in Hk. cbn [foldl] in Hk.
    destruct (foldl refresh_entry (cs, ops) roster) as [cs' ops'] eqn:Hloop.
    rewrite refresh_entry_lookup in Hk. rewrite last_named_snoc.
    destruct (decide (sd_name sdata = k)) as [Heq|Hne].
    + injection Hk as <-. exists sdata. repeat split.
    + apply (IH k c Hk).
      rewrite fmap_app, list_to_set_app_L in Hin. simpl in Hin. set_solver.
Qed.

(** X6. After a refresh the cards are exactly the names of the roster,
    the empty-state label is shown exactly when the roster is empty, and
    each card holds the data of the last roster entry of its name, with
    a collapsed tools list over the tools of that entry and a switch that
    is on exactly when the entry is not disabled. *)
Theorem refresh_shows_roster roster t :
  let t' := fst (refresh roster t) in
  dom (cards t') = current_names roster /\
  empty_label_mapped t' = bool_decide (roster = []) /\
  forall k c, cards t' !! k = Some c ->
    exists sdata,
      last_named k roster = Some sdata /\
      server_data c = sdata /\
      tools_list c = ToolsList_init (sd_tools sdata) /\
      enabled_var c = negb (sd_disabled sdata).
Proof.
  intros t'. split; [apply refresh_dom|]. split.
  - subst t'. unfold refresh. destruct roster as [|sdata roster]; [reflexivity|].
    destruct (foldl refresh_entry _ (sdata :: roster)). reflexivity.
  - intros k c Hk.
    assert (Hin : k ∈ current_names roster).
    { rewrite <- (refresh_dom roster t). apply elem_of_dom. eauto. }
    subst t'. unfold refresh in Hk. destruct roster as [|sdata roster].
    + unfold current_names in Hin. simpl in Hin. set_solver.
    + pose proof (refresh_loop_content
        (remove_gone (elements (dom (cards t) ∖ current_names (sdata :: roster))) (cards t))
        (CardDestroyed <$> elements (dom (cards t) ∖ current_names (sdata :: roster)))
        (sdata :: roster) k c) as Hloop.
      destruct (foldl refresh_entry _ (sdata :: roster)) as [cs' ops'].
      apply Hloop; assumption.
Qed.

(** X7. A refresh with an empty roster destroys every card once, leaves
    no card and shows the empty-state label. *)
Theorem refresh_empty_roster_clears t :
  refresh [] t =
    ({| cards := ∅; empty_label_mapped := true |},
     CardDestroyed <$> elements (dom (cards t))).
Proof.
  unfold refresh.
  replace (current_names []) with (∅ : gset (option string)) by reflexivity.
  rewrite difference_empty_L. f_equal. f_equal.
  apply map_eq. intros k. rewrite remove_gone_lookup, lookup_empty.
  destruct (decide (k ∈ elements (dom (cards t)))) as [_|Hout]; [reflexivity|].
  apply not_elem_of_dom. rewrite <- elem_of_elements. exact Hout.
Qed.

Section Switch.
Import HubClient.
Variable network : request -> http_outcome.
Variable utf8_decode : string -> option string.
Variable json_loads : string -> option json.

(** X8. Flipping the switch of a card sends one POST request that names
    the card's server: to /api/servers/start when the server was
    disabled, to /api/servers/stop?disable=true when it was not. The
    switch keeps its new position and the rest of the card is not
    changed. *)
Theorem flip_switch_request client name data :
  let card := _build name data in
  let '(card', (reqs, result)) :=
    flip_switch network utf8_decode json_loads client card in
  reqs =
    [ {| req_method := POST;
         req_url := base_url client +:+
                    (if sd_disabled data then "/api/servers/start"
                     else "/api/servers/stop") +:+
                    (if sd_disabled data then "" else "?disable=true");
         req_data := Some (JObj [("server_name", JStr name)]);
         req_headers := [("Content-Type", "application/json")];
         req_timeout := 10 |} ] /\
  enabled_var card' = sd_disabled data /\
  server_data card' = data /\
  tools_list card' = tools_list card /\
  display_status card' = display_status card.
Proof.
  unfold flip_switch, _on_switch. simpl.
  destruct (sd_disabled data); simpl; repeat split.
Qed.

End Switch.

Lemma py_prefix_cut d : forall n,
  (n < py_len d)%nat -> cut_to n d (py_prefix n d).
Proof.
  induction d as [|c r IH]; intros n Hn; simpl in *; [lia|].
  destruct (is_continuation c) eqn:Hc.
  - destruct (IH n Hn) as (rest & Hr & Hlen & Hb).
    exists rest. split; [|split; [simpl; rewrite Hc; exact Hlen|exact Hb]].
    change (String c r = String c (py_prefix n r +:+ rest)). f_equal. exact Hr.
  - destruct n as [|n'].
    + exists (String c r). split; [reflexivity|]. split; [reflexivity|exact Hc].
    + destruct (IH n' ltac:(lia)) as (rest & Hr & Hlen & Hb).
      exists rest. split; [|split; [simpl; rewrite Hc, Hlen; reflexivity|exact Hb]].
      change (String c r = String c (py_prefix n' r +:+ rest)). f_equal. exact Hr.
Qed.

Lemma py_len_append s1 s2 : py_len (s1 +:+ s2) = (py_len s1 + py_len s2)%nat.
Proof.
  induction s1 as [|c s1 IH]; simpl; [reflexivity|].
  destruct (is_continuation c); rewrite IH; reflexivity.
Qed.

(** The shortened description: the description itself up to 80
    characters, and otherwise its first 80 characters and three dots. *)
Lemma short_description_cut d :
  ((py_len d <= 80)%nat -> short_description d = d) /\
  ((80 < py_len d)%nat ->
     exists p, cut_to 80 d p /\ short_description d = p +:+ "..." /\
               py_len (short_description d) = 83%nat).
Proof.
  unfold short_description.
  destruct (Nat.ltb_spec 80 (py_len d)) as [Hlong|Hshort].
  - split; [lia|]. intros _. exists (py_prefix 80 d).
    pose proof (py_prefix_cut d 80%nat Hlong) as Hcut.
    split; [exact Hcut|]. split; [reflexivity|].
    destruct Hcut as (rest & _ & Hlen & _).
    rewrite py_len_append, Hlen. reflexivity.
  - split; [reflexivity|lia].
Qed.

Lemma tool_labels_of t : labels_of t (tool_labels t).
Proof.
  unfold tool_labels.
  destruct (tool_description t) as [d|] eqn:Hd; simpl.
  - destruct (short_description_cut d) as [Hshort Hlong].
    destruct (le_lt_dec (py_len d) 80) as [Hle|Hgt].
    + rewrite (Hshort Hle).
      destruct (String.eqb_spec d "") as [->|Hne].
      * apply labels_name. rewrite Hd. reflexivity.
      * apply (labels_whole t d); assumption.
    + destruct (Hlong Hgt) as (p & Hcut & -> & _).
      replace (String.eqb (p +:+ "...") "") with false.
      * apply (labels_cut t d p); assumption.
      * symmetry. apply String.eqb_neq. destruct p; discriminate.
  - apply labels_name. rewrite Hd. reflexivity.
Qed.

(** X10. [set_tools] keeps the expanded state and the packing of the
    list, writes the number of tools on the button, and makes the labels
    of the tools in their order: for each tool a label with its name,
    followed, when the tool has a description that is not empty, by a
    label with the description, cut after its first 80 characters and
    given three dots when it is longer than that. *)
Theorem set_tools_labels ts v :
  let v' := view_set_tools ts v in
  tv_expanded v' = tv_expanded v /\
  tv_list_packed v' = tv_list_packed v /\
  tv_toggle_text v' = tools_caption (length ts) (arrow (tv_expanded v)) /\
  exists groups,
    tv_labels v' = concat groups /\ Forall2 labels_of ts groups.
Proof.
  cbn [view_set_tools tv_expanded tv_list_packed tv_labels tv_toggle_text].
  split; [reflexivity|]. split; [reflexivity|]. split; [reflexivity|].
  exists (map tool_labels ts). split; [apply flat_map_concat_map|].
  induction ts as [|t ts IH]; constructor; [apply tool_labels_of|exact IH].
Qed.

Lemma view_run_consistent ts acts :
  view_consistent (view_run acts (ToolsView_init ts)).
Proof.
  unfold view_run. induction acts as [|a acts IH] using rev_ind.
  - split; reflexivity.
  - rewrite foldl_app. simpl.
    destruct IH as [Hp Ht]. destruct a as [|ts']; simpl.
    + unfold view_toggle.
      destruct (tv_expanded (foldl _ _ acts)); split; reflexivity.
    + split; [exact Hp|reflexivity].
Qed.

(** X9. Whatever a tools list has gone through, its frame is packed
    exactly when it is expanded, and clicking its button twice brings
    every widget back to where it was. *)
Theorem view_toggle_twice ts acts :
  let v := view_run acts (ToolsView_init ts) in
  view_toggle (view_toggle v) = v /\
  tv_list_packed v = tv_expanded v /\
  view_state (view_toggle v) = _toggle (view_state v).
Proof.
  intros v. destruct (view_run_consistent ts acts) as [Hp Ht]. fold v in Hp, Ht.
  split; [|split; [exact Hp|]].
  - destruct v as [tools e text packed labels]. simpl in *. subst text packed.
    unfold view_toggle. destruct e; reflexivity.
  - unfold view_toggle, view_state, _toggle. destruct (tv_expanded v); reflexivity.
Qed.

(** X11. The constructor of a tools list makes no label: however many
    times the button is clicked, the frame holds no label while the
    button counts the tools; labels only come from [set_tools]. *)
Theorem fresh_tools_list_has_no_labels ts n :
  let v := view_run (replicate n ViewToggle) (ToolsView_init ts) in
  tv_labels v = [] /\ tv_tools v = ts /\
  tv_toggle_text v = tools_caption (length ts) (arrow (tv_expanded v)).
Proof.
  unfold view_run. induction n as [|n IH].
  - repeat split.
  - rewrite replicate_S_end, foldl_app. simpl.
    destruct IH as (Hl & Ht & Hc). unfold view_toggle.
    destruct (tv_expanded (foldl _ _ (replicate n ViewToggle))); simpl;
      rewrite Hl, Ht; repeat split.
Qed.

End ServersTabMore.

(** ** The hub life cycle *)

Section AppMore.
Import Py App.

Variable int_max_str_digits : nat.
Variable PROJECT_ROOT : string.

Lemma stop_hub_now os w : now (fst (_stop_hub os w)) = now w.
Proof. apply stop_hub_frame. Qed.

Lemma step_now e w :
  now (step int_max_str_digits PROJECT_ROOT e w) = now w \/
  exists late env, e = Tick late env.
Proof.
  destruct e as [os|text|i ok|i text|i|i|h|late env]; simpl;
    [| | | | | | |right; eauto]; left.
  - unfold click. destruct (start_btn_state (app w)); [|reflexivity].
    unfold _toggle_hub. destruct (hub_running (app w)).
    + apply stop_hub_now.
    + unfold _start_hub. rewrite read_port_entered. reflexivity.
  - reflexivity.
  - unfold thread_popen.
    destruct (threads w !! i) as [[| | |]|]; try reflexivity.
    destruct ok; reflexivity.
  - unfold thread_line.
    destruct (threads w !! i) as [[| | |]|]; try reflexivity.
    destruct (String.eqb text ""); reflexivity.
  - unfold thread_eof.
    destruct (threads w !! i) as [[| | |]|]; try reflexivity.
    destruct (is_alive h w); [reflexivity|].
    destruct (hub_process (app w)); reflexivity.
  - unfold thread_wait_done.
    destruct (threads w !! i) as [[| | |]|]; try reflexivity.
    destruct (is_alive h w); reflexivity.
  - reflexivity.
Qed.

(** X15. In every world reached from the start of the application there
    is exactly one pending tick, due 3000 milliseconds after the last
    one ran: polling never stops and never doubles. *)
Theorem polling_timer_invariant es :
  let w := run int_max_str_digits PROJECT_ROOT es init in
  timers w = [(now w + 3000, PollHealth)] /\ 0 <= now w.
Proof.
  unfold run.
  induction es as [|e es IH] using rev_ind; [split; [reflexivity|simpl; lia]|].
  rewrite foldl_app. simpl.
  set (w := foldl (fun w e => step int_max_str_digits PROJECT_ROOT e w) init es) in *.
  destruct IH as [Htimers Hnow].
  destruct (step_now e w) as [Hsame'|(late & env & ->)].
  - destruct (step_timers int_max_str_digits PROJECT_ROOT e w) as [Hsame|(late & env & ->)].
    + rewrite Hsame, Hsame'. split; assumption.
    + simpl in Hsame'. simpl. unfold tick in *. rewrite Htimers in *.
      destruct (poll_health_frame env
                  (set_now (now w + 3000 + Z.max 0 late) (set_timers [] w)))
        as (_ & _ & _ & Ht & Hn & _).
      rewrite Ht, Hn. rewrite Hn in Hsame'. simpl in *. lia.
  - simpl. unfold tick. rewrite Htimers.
    destruct (poll_health_frame env
                (set_now (now w + 3000 + Z.max 0 late) (set_timers [] w)))
      as (_ & _ & _ & Ht & Hn & _).
    rewrite Ht, Hn. simpl. split; [reflexivity|lia].
Qed.

Lemma click_starts os w :
  start_btn_state (app w) = normal -> hub_running (app w) = false ->
  click int_max_str_digits os w =
    spawn_thread
      (upd_app (fun a =>
         append_log "INFO"
           ("Starting MCP Hub on port " +:+
            pretty (entered_port int_max_str_digits (port_entry (app w))) +:+ "...")
           (set_start_btn_state disabled
              (set_status_label "Starting..."
                 (set_client_port (entered_port int_max_str_digits (port_entry (app w)))
                    (set_port (entered_port int_max_str_digits (port_entry (app w))) a)))))
         w).
Proof.
  intros Hbtn Hrun. unfold click. rewrite Hbtn. unfold _toggle_hub. rewrite Hrun.
  unfold _start_hub. rewrite read_port_entered. reflexivity.
Qed.

Lemma insert_last {A} (l : list A) (x y : A) :
  <[length l := y]> (l ++ [x]) = l ++ [y].
Proof.
  rewrite insert_app_r_alt by lia. rewrite Nat.sub_diag. reflexivity.
Qed.

(** X22. When [Popen] fails no process is created and the handle is not
    touched: the flag is clear, the status reads Error, the button is
    enabled with its start text, and the next click starts the hub
    again. *)
Theorem spawn_failure_can_be_retried os os' w :
  start_btn_state (app w) = normal -> hub_running (app w) = false ->
  let w1 := thread_popen PROJECT_ROOT (length (threads w)) false
              (click int_max_str_digits os w) in
  procs w1 = procs w /\
  hub_process (app w1) = hub_process (app w) /\
  hub_running (app w1) = false /\
  start_btn_state (app w1) = normal /\
  start_btn_text (app w1) = "Start Hub" /\
  status_label (app w1) = "Error" /\
  threads w1 = threads w ++ [Finished] /\
  threads (click int_max_str_digits os' w1) = threads w1 ++ [Starting].
Proof.
  intros Hbtn Hrun w1.
  assert (Hw1 : threads w1 = threads w ++ [Finished] /\
                app w1 = run_except FileNotFoundError
                           (app (click int_max_str_digits os w)) /\
                procs w1 = procs w).
  { subst w1. rewrite (click_starts os w Hbtn Hrun). unfold thread_popen.
    cbn [threads spawn_thread set_threads upd_app].
    rewrite lookup_app_r by lia. rewrite Nat.sub_diag. cbn.
    rewrite insert_last. repeat split. }
  destruct Hw1 as (Hth & Happ & Hprocs).
  rewrite Hth, Hprocs, Happ. rewrite (click_starts os w Hbtn Hrun).
  repeat split.
  rewrite (click_starts os' w1).
  - cbn. rewrite Hth. reflexivity.
  - rewrite Happ. reflexivity.
  - rewrite Happ. reflexivity.
Qed.

(** X23. When the hub exits on its own, its reader thread resets the
    running flag and the button and sets the status to Stopped; the
    handle of the dead process stays in [hub_process]. *)
Theorem natural_exit_returns_to_idle i h w :
  threads w !! i = Some (Streaming h) ->
  hub_process (app w) = Some h ->
  let w' := run int_max_str_digits PROJECT_ROOT
              [ProcExit h; ThreadEof i; ThreadWaitDone i] w in
  hub_running (app w') = false /\
  start_btn_state (app w') = normal /\
  start_btn_text (app w') = "Start Hub" /\
  status_label (app w') = "Stopped" /\
  log (app w') = log (app w) ++ [("INFO", "Hub process exited")] /\
  hub_process (app w') = Some h /\
  is_alive h w' = false /\
  threads w' = <[i := Finished]> (threads w).
Proof.
  intros Hi Hproc w'. subst w'. unfold run. cbn [foldl step].
  assert (Hlt : (i < length (threads w))%nat) by (eapply lookup_lt_Some; eauto).
  pose proof (is_alive_mark_exited h w) as Hdead.
  unfold thread_eof. cbn [threads mark_exited set_procs].
  rewrite Hi, Hdead. cbn [app mark_exited set_procs]. rewrite Hproc.
  unfold thread_wait_done. cbn [threads set_thread set_threads].
  rewrite list_lookup_insert_eq by exact Hlt.
  change (is_alive h (set_thread i (Waiting h) (mark_exited h w)))
    with (is_alive h (mark_exited h w)).
  rewrite Hdead. cbn. rewrite list_insert_insert_eq.
  repeat split; try exact Hproc. exact Hdead.
Qed.

(** What a click on the button does while the hub runs and the stop
    request can clear the handle. *)
Lemma click_stops os h w :
  start_btn_state (app w) = normal -> hub_running (app w) = true ->
  hub_process (app w) = Some h ->
  is_alive h w = false \/ kill_raises os = false \/
    (terminate_raises os = false /\ exits_in_time os = true) ->
  let w0 := upd_app (append_log "INFO" "Stopping MCP Hub...") w in
  click int_max_str_digits os w =
    upd_app (set_status_label "Stopped")
      (upd_app (set_start_btn_text "Start Hub")
         (upd_app (set_hub_running false)
            (upd_app (set_hub_process None)
               (if is_alive h w && (terminate_raises os || negb (exits_in_time os))
                then mark_killed h w0 else mark_exited h w0)))).
Proof.
  intros Hbtn Hrun Hproc Hcase. cbn zeta.
  unfold click. rewrite Hbtn. unfold _toggle_hub. rewrite Hrun, stop_hub_eq, Hproc.
  cbn zeta.
  destruct (is_alive h w && (terminate_raises os || negb (exits_in_time os))) eqn:Hkill;
    [|reflexivity].
  destruct (kill_raises os) eqn:Hraise; [|reflexivity].
  exfalso. apply andb_true_iff in Hkill as [Halive Hsig].
  destruct Hcase as [Hc|[Hc|[Hc1 Hc2]]]; [congruence|congruence|].
  rewrite Hc1, Hc2 in Hsig. discriminate.
Qed.

(** X24. When a stop has cleared the handle before the reader thread of
    the stopped process reaches [self.hub_process.wait()], that call
    fails on [None] once the process has exited: the status then reads
    Error though the stop went well, and the log holds the entry of the
    stop and no entry for the failure, whose logging callback fails
    itself. *)
Theorem stop_then_reader_reports_error os i h w :
  start_btn_state (app w) = normal -> hub_running (app w) = true ->
  hub_process (app w) = Some h ->
  threads w !! i = Some (Streaming h) ->
  is_alive h w = false \/ kill_raises os = false \/
    (terminate_raises os = false /\ exits_in_time os = true) ->
  let w' := run int_max_str_digits PROJECT_ROOT [Click os; ProcExit h; ThreadEof i] w in
  status_label (app w') = "Error" /\
  log (app w') = log (app w) ++ [("INFO", "Stopping MCP Hub...")] /\
  hub_running (app w') = false /\
  hub_process (app w') = None /\
  start_btn_state (app w') = normal /\
  start_btn_text (app w') = "Start Hub" /\
  threads w' = <[i := Finished]> (threads w).
Proof.
  intros Hbtn Hrun Hproc Hi Hcase w'. subst w'. unfold run. cbn [foldl step].
  rewrite (click_stops os h w Hbtn Hrun Hproc Hcase).
  set (w0 := upd_app (append_log "INFO" "Stopping MCP Hub...") w).
  set (w1 := if is_alive h w && (terminate_raises os || negb (exits_in_time os))
             then mark_killed h w0 else mark_exited h w0).
  assert (Hframe : app w1 = app w0 /\ threads w1 = threads w).
  { subst w1. destruct (_ && _)%bool; [|split; reflexivity].
    destruct (mark_killed_frame h w0) as (Ha & _ & _ & Ht & _). split; assumption. }
  destruct Hframe as [Happ Hth].
  set (w2 := mark_exited h _).
  assert (Hdead : is_alive h w2 = false) by apply is_alive_mark_exited.
  assert (Hth2 : threads w2 = threads w) by exact Hth.
  assert (Happ2 : app w2 = set_status_label "Stopped"
                    (set_start_btn_text "Start Hub"
                       (set_hub_running false (set_hub_process None (app w0))))).
  { subst w2. cbn [app mark_exited set_procs upd_app]. rewrite Happ. reflexivity. }
  unfold thread_eof. rewrite Hth2, Hi, Hdead, Happ2.
  cbn. rewrite Hth, Happ. repeat split.
Qed.


End AppMore.

(** ** The port entry, the project root and the fetch *)

Section PortRoundTrip.
Import Py App.

Variable int_max_str_digits : nat.

Lemma pretty_N_char_digit d :
  (d < 10)%N ->
  digit_value (ascii_char (pretty_N_char d)) = Some (Z.of_N d).
Proof.
  intros Hd.
  assert (d = 0 \/ d = 1 \/ d = 2 \/ d = 3 \/ d = 4 \/ d = 5 \/ d = 6 \/
          d = 7 \/ d = 8 \/ d = 9)%N as Hcases by lia.
  repeat (destruct Hcases as [->|Hcases]; [reflexivity|]).
  subst d. reflexivity.
Qed.

(** What [pretty] writes for a number: its decimal digits, without a
    leading zero. *)
Lemma pretty_N_go_digits x : forall s,
  exists ds,
    text_of_string (pretty_N_go x s) = ds ++ text_of_string s /\
    Forall (fun c => is_digit c = true) ds /\
    (forall acc, fold_left (fun acc c => 10 * acc + default 0 (digit_value c)) ds acc
                 = acc * 10 ^ Z.of_nat (length ds) + Z.of_N x) /\
    (x = 0%N -> ds = []) /\
    ((0 < x)%N -> ds <> [] /\ 10 ^ Z.of_nat (length ds) <= 10 * Z.of_N x).
Proof.
  induction (N.lt_wf_0 x) as [x _ IH]. intros s.
  destruct (N.eq_dec x 0%N) as [->|Hpos].
  - exists []. rewrite pretty_N_go_0.
    split; [reflexivity|]. split; [constructor|].
    split; [intros acc; simpl; lia|].
    split; [intros _; reflexivity|]. intros H. lia.
  - assert (Hx : (0 < x)%N) by lia.
    rewrite pretty_N_go_step by exact Hx.
    destruct (IH (x `div` 10)%N (N.div_lt x 10 Hx eq_refl)
               (String (pretty_N_char (x `mod` 10)) s))
      as (ds & Hchars & Hall & Hval & Hzero & Hnz).
    pose proof (pretty_N_char_digit (x `mod` 10)%N) as Hdig.
    specialize (Hdig ltac:(apply N.mod_lt; discriminate)).
    exists (ds ++ [ascii_char (pretty_N_char (x `mod` 10))]).
    assert (Hdm : Z.of_N x = 10 * Z.of_N (x `div` 10) + Z.of_N (x `mod` 10)).
    { pose proof (N.div_mod x 10%N ltac:(discriminate)) as Hdiv. lia. }
    split; [|split; [|split; [|split]]].
    + rewrite Hchars. rewrite <- app_assoc. reflexivity.
    + apply Forall_app. split; [exact Hall|].
      constructor; [unfold is_digit; rewrite Hdig; reflexivity|constructor].
    + intros acc. rewrite fold_left_app, Hval. cbn [fold_left]. rewrite Hdig.
      cbn [default from_option]. rewrite length_app. cbn [length].
      rewrite Nat2Z.inj_add.
      rewrite Z.pow_add_r by lia. change (10 ^ Z.of_nat 1) with 10. unfold id. lia.
    + intros ->. lia.
    + intros _. split.
      * intros Hnil. apply app_eq_nil in Hnil as [_ Hnil]. discriminate.
      * rewrite length_app. cbn [length]. rewrite Nat2Z.inj_add.
        rewrite Z.pow_add_r by lia. change (10 ^ Z.of_nat 1) with 10.
        destruct (N.eq_dec (x `div` 10)%N 0%N) as [Hsmall|Hbig].
        -- rewrite (Hzero Hsmall). simpl. lia.
        -- destruct Hnz as [_ Hbound]; [apply N.neq_0_lt_0; exact Hbig|].
           pose proof (N2Z.is_nonneg (x `mod` 10)) as Hmod.
           rewrite Hdm. clear - Hbound Hmod.
           generalize dependent (10 ^ Z.of_nat (length ds)).
           generalize dependent (Z.of_N (x `div` 10)).
           generalize dependent (Z.of_N (x `mod` 10)). intros; lia.
Qed.

Lemma pretty_port_digits p :
  1 <= p <= 65535 ->
  exists ds,
    text_of_string (pretty p) = ds /\
    ds <> [] /\ Forall (fun c => is_digit c = true) ds /\
    decimal_value ds = p /\ (length ds <= 5)%nat.
Proof.
  intros Hp. destruct p as [|q|q]; try lia.
  destruct (pretty_N_go_digits (Npos q) "") as (ds & Hchars & Hall & Hval & _ & Hnz).
  destruct Hnz as [Hne Hbound]; [lia|].
  exists ds. change (text_of_string "") with (@nil uchar) in Hchars.
  rewrite app_nil_r in Hchars.
  split; [|split; [exact Hne|split; [exact Hall|split]]].
  - exact Hchars.
  - unfold decimal_value. rewrite Hval. simpl. lia.
  - destruct (le_lt_dec (length ds) 5) as [Hle|Hgt]; [exact Hle|exfalso].
    assert (10 ^ 6 <= 10 ^ Z.of_nat (length ds)) by (apply Z.pow_le_mono_r; lia).
    change (Z.of_N (N.pos q)) with (Z.pos q) in Hbound. lia.
Qed.

(** X13. The port entry is filled with [str(self.port)]: reading the
    text of any port from 1 to 65535 gives that port back. *)
Theorem read_port_of_str_port p :
  1 <= p <= 65535 ->
  (int_max_str_digits = 0 \/ 5 <= int_max_str_digits)%nat ->
  _read_port int_max_str_digits (text_of_string (pretty p)) = Return p.
Proof.
  intros Hp Hlimit.
  destruct (pretty_port_digits p Hp) as (ds & Hstr & Hne & Hall & Hval & Hlen).
  unfold _read_port, strip. rewrite Hstr.
  assert (Hstrip : strip_with py_isspace ds = ds).
  { destruct (digits_ends py_isspace ds Hall) as [Hh Hl].
    - intros c Hc. apply (digit_not_space c Hc).
    - apply strip_with_id; assumption. }
  rewrite Hstrip, (py_int_decimal int_max_str_digits ds Hne Hall), Hval.
  - replace ((1 <=? p) && (p <=? 65535)) with true by lia. reflexivity.
  - destruct Hlimit as [->|Hl]; [left; reflexivity|right; lia].
Qed.

End PortRoundTrip.

Section ProjectRootMore.
Import ProjectRoot.

Variable isfile : list string -> bool.

Lemma walk_up_snoc l x :
  walk_up isfile (rev (l ++ [x])) =
  if isfile ((l ++ [x]) ++ [package_json]) then Some (l ++ [x])
  else walk_up isfile (rev l).
Proof. rewrite rev_app_distr. simpl. rewrite rev_involutive. reflexivity. Qed.

Lemma walk_up_spec l :
  match walk_up isfile (rev l) with
  | Some r =>
      (exists n, (n <= length l)%nat /\ r = take n l) /\
      isfile (r ++ [package_json]) = true /\
      (forall m, (length r < m <= length l)%nat ->
         isfile (take m l ++ [package_json]) = false)
  | None =>
      forall m, (m <= length l)%nat -> isfile (take m l ++ [package_json]) = false
  end.
Proof.
  induction l as [|x l IH] using rev_ind.
  - simpl. destruct (isfile [package_json]) eqn:Hroot.
    + split; [exists 0%nat; split; [lia|reflexivity]|]. split; [exact Hroot|].
      intros m Hm. simpl in Hm. lia.
    + intros m Hm. simpl in Hm. replace m with 0%nat by lia. exact Hroot.
  - rewrite walk_up_snoc. rewrite length_app. simpl.
    destruct (isfile ((l ++ [x]) ++ [package_json])) eqn:Hhere.
    + split; [|split; [exact Hhere|]].
      * exists (length l + 1)%nat. split; [lia|].
        symmetry. apply take_ge. rewrite length_app. simpl. lia.
      * intros m Hm. rewrite length_app in Hm. simpl in Hm. lia.
    + assert (Hfull : forall m, (m = length l + 1)%nat ->
                isfile (take m (l ++ [x]) ++ [package_json]) = false).
      { intros m ->. rewrite take_ge by (rewrite length_app; simpl; lia). exact Hhere. }
      assert (Hshort : forall m, (m <= length l)%nat ->
                take m (l ++ [x]) = take m l).
      { intros m Hm. apply take_app_le. exact Hm. }
      destruct (walk_up isfile (rev l)) as [r|].
      * destruct IH as ((n & Hn & ->) & Hfound & Hdeeper).
        split; [exists n; split; [lia|symmetry; apply Hshort; exact Hn]|].
        split; [exact Hfound|].
        intros m Hm.
        destruct (decide (m = length l + 1)%nat) as [Heq|Hne]; [apply Hfull; exact Heq|].
        rewrite Hshort by lia. apply Hdeeper. lia.
      * intros m Hm.
        destruct (decide (m = length l + 1)%nat) as [Heq|Hne]; [apply Hfull; exact Heq|].
        rewrite Hshort by lia. apply IH. lia.
Qed.

(** X14. [find_project_root] returns the directory of the file or one of
    its ancestors: the nearest one that holds a package.json, and the
    directory of the file itself when none does. *)
Theorem find_project_root_nearest here :
  let root := find_project_root isfile here in
  (exists n, (n <= length here)%nat /\ root = take n here) /\
  (forall m, (m <= length here)%nat ->
     isfile (take m here ++ [package_json]) = true ->
     isfile (root ++ [package_json]) = true /\ (m <= length root)%nat) /\
  ((forall m, (m <= length here)%nat ->
      isfile (take m here ++ [package_json]) = false) -> root = here).
Proof.
  intros root. subst root. unfold find_project_root.
  pose proof (walk_up_spec here) as Hspec.
  destruct (walk_up isfile (rev here)) as [r|]; simpl.
  - destruct Hspec as ((n & Hn & ->) & Hfound & Hdeeper).
    split; [exists n; split; [exact Hn|reflexivity]|]. split.
    + intros m Hm Hpkg. split; [exact Hfound|].
      destruct (le_lt_dec m (length (take n here))) as [Hle|Hgt]; [exact Hle|].
      rewrite (Hdeeper m) in Hpkg by lia. discriminate.
    + intros Hnone. rewrite (Hnone n Hn) in Hfound. discriminate.
  - split; [exists (length here); split; [lia|symmetry; apply firstn_all]|]. split.
    + intros m Hm Hpkg. rewrite (Hspec m Hm) in Hpkg. discriminate.
    + intros _. reflexivity.
Qed.

End ProjectRootMore.

Section PollingMore.
Import Py HubClient Polling.

Variable network : request -> http_outcome.
Variable utf8_decode : string -> option string.
Variable json_loads : string -> option json.

(** X16. When the health request fails, the fetch of the polling loop
    schedules no refresh of the servers tab and raises nothing. *)
Theorem fetch_failure_schedules_nothing c :
  round_trip_fails network utf8_decode json_loads (_get_request c "/api/health") ->
  fetch network utf8_decode json_loads c =
    ([_get_request c "/api/health"], Return None).
Proof.
  intros Hfail. unfold fetch, get_health, _get.
  rewrite (guarded_round_trip_fails network utf8_decode json_loads _ Hfail).
  reflexivity.
Qed.

(** X17. When the health request succeeds, a refresh is scheduled for
    the payload exactly when the payload is truthy: an empty object, an
    empty list or [null] schedules nothing. *)
Theorem fetch_success_schedules_payload c status body s data :
  network (_get_request c "/api/health") = Response status body ->
  200 <= status < 300 ->
  utf8_decode body = Some s -> json_loads s = Some data ->
  fetch network utf8_decode json_loads c =
    ([_get_request c "/api/health"],
     Return (if truthy data then Some data else None)).
Proof.
  intros Hnet Hcode Hdec Hjson. unfold fetch, get_health, _get.
  unfold urlopen. rewrite Hnet.
  replace ((200 <=? status) && (status <? 300)) with true by lia.
  cbn [bind]. unfold decode. rewrite Hdec. cbn [bind]. unfold loads.
  rewrite Hjson. reflexivity.
Qed.

End PollingMore.

(** ** The properties above at concrete inputs *)

Lemma api_success_returns_payload_witness :
  snd (HubClient.run_op HubClient.healthy_network HubClient.ascii_decode
         HubClient.object_loads HubClient.default_client HubClient.GetHealth)
  = Py.Return (HubClient.JObj []).
Proof.
  apply (api_success_returns_payload HubClient.healthy_network HubClient.ascii_decode
           HubClient.object_loads HubClient.default_client HubClient.GetHealth
           (HubClient._get_request HubClient.default_client "/api/health")
           200 "{}" "{}" (HubClient.JObj []));
    [reflexivity | reflexivity | lia | reflexivity | reflexivity].
Defined.

Lemma api_lets_base_exceptions_through_witness :
  snd (HubClient.run_op HubClient.interrupted_network HubClient.ascii_decode
         HubClient.object_loads HubClient.default_client
         (HubClient.StartServer "fs"))
  = Py.Raise Py.KeyboardInterrupt.
Proof.
  apply (api_lets_base_exceptions_through HubClient.interrupted_network
           HubClient.ascii_decode HubClient.object_loads HubClient.default_client
           (HubClient.StartServer "fs")
           (HubClient._post_request HubClient.default_client "/api/servers/start"
              (Some [("server_name", HubClient.JStr "fs")]) "")
           Py.KeyboardInterrupt);
    reflexivity.
Defined.

Lemma log_view_shows_filtered_entries_witness :
  LogsTab.shows LogsTab.debug_filtered (LogsTab.visible_entries LogsTab.debug_filtered).
Proof.
  apply (log_view_shows_filtered_entries LogsTab.sample_clock LogsTab.debug_filtered).
  exists [LogsTab.AppendLog "DEBUG" "tick"; LogsTab.SelectFilter "DEBUG"]. reflexivity.
Defined.

Lemma debug_filter_without_debug_box_shows_nothing_witness :
  LogsTab.log_entries LogsTab.debug_filtered = [("DEBUG", "tick")] /\
  LogsTab.log_text LogsTab.debug_filtered = [].
Proof.
  split; [reflexivity|].
  apply (debug_filter_without_debug_box_shows_nothing LogsTab.sample_clock
           LogsTab.debug_filtered); [|reflexivity|reflexivity].
  exists [LogsTab.AppendLog "DEBUG" "tick"; LogsTab.SelectFilter "DEBUG"]. reflexivity.
Defined.

Lemma select_all_with_debug_shows_every_entry_witness :
  LogsTab.shows
    (LogsTab.step LogsTab.sample_clock (LogsTab.SelectFilter "ALL") LogsTab.debug_shown)
    (LogsTab.log_entries LogsTab.debug_shown) /\
  LogsTab.log_entries
    (LogsTab.step LogsTab.sample_clock (LogsTab.SelectFilter "ALL") LogsTab.debug_shown)
  = LogsTab.log_entries LogsTab.debug_shown.
Proof.
  apply (select_all_with_debug_shows_every_entry LogsTab.sample_clock LogsTab.debug_shown);
    [|reflexivity].
  exists [LogsTab.AppendLog "DEBUG" "tick"; LogsTab.ClickShowDebug]. reflexivity.
Defined.


Lemma read_port_decimal_witness :
  App._read_port 4300 App.arabic_8080 = Py.Return 8080.
Proof.
  apply (read_port_decimal 4300
           [App.nbsp]
           [App.arabic_indic App.D8; App.arabic_indic App.D0;
            App.arabic_indic App.D8; App.arabic_indic App.D0]
           []).
  - repeat constructor.
  - constructor.
  - discriminate.
  - repeat constructor.
  - right. simpl. lia.
Defined.

Lemma read_port_of_str_port_witness :
  App._read_port 4300 (App.text_of_string (pretty 8080)) = Py.Return 8080.
Proof.
  apply (read_port_of_str_port 4300 8080); [lia | right; lia].
Defined.

Lemma fetch_failure_schedules_nothing_witness :
  Polling.fetch HubClient.failing_network HubClient.ascii_decode HubClient.null_loads
    HubClient.default_client
  = ([HubClient._get_request HubClient.default_client "/api/health"], Py.Return None).
Proof.
  apply (fetch_failure_schedules_nothing HubClient.failing_network
           HubClient.ascii_decode HubClient.null_loads HubClient.default_client).
  eapply HubClient.fails_status; [reflexivity | lia].
Defined.

Lemma fetch_success_schedules_payload_witness :
  Polling.fetch HubClient.healthy_network HubClient.ascii_decode HubClient.object_loads
    HubClient.default_client
  = ([HubClient._get_request HubClient.default_client "/api/health"], Py.Return None).
Proof.
  apply (fetch_success_schedules_payload HubClient.healthy_network
           HubClient.ascii_decode HubClient.object_loads HubClient.default_client
           200 "{}" "{}" (HubClient.JObj []));
    [reflexivity | lia | reflexivity | reflexivity].
Defined.


Lemma click_while_running_spawns_nothing_witness :
  App.threads (App.click 4300 App.graceful App.running_world)
    = App.threads App.running_world /\
  App.popen_calls (App.click 4300 App.graceful App.running_world)
    = App.popen_calls App.running_world /\
  length (App.procs (App.click 4300 App.graceful App.running_world))
    = length (App.procs App.running_world).
Proof.
  apply (click_while_running_spawns_nothing 4300 App.graceful App.running_world).
  reflexivity.
Defined.

Lemma unhurried_one_process_witness :
  (length (App.alive_handles
             (App.run 4300 "/opt/mcp-hub" App.patient_trace App.init)) <= 1)%nat.
Proof.
  apply (unhurried_one_process 4300 "/opt/mcp-hub" App.patient_trace).
  vm_compute. reflexivity.
Defined.

Lemma spawn_failure_can_be_retried_witness :
  let w1 := App.thread_popen "/opt/mcp-hub" 0 false
              (App.click 4300 App.graceful App.init) in
  App.procs w1 = [] /\
  App.status_label (App.app w1) = "Error" /\
  App.threads (App.click 4300 App.graceful w1) = App.threads w1 ++ [App.Starting].
Proof.
  destruct (spawn_failure_can_be_retried 4300 "/opt/mcp-hub" App.graceful App.graceful
              App.init eq_refl eq_refl)
    as (Hprocs & _ & _ & _ & _ & Hstatus & _ & Hnext).
  split; [exact Hprocs|]. split; [exact Hstatus|exact Hnext].
Defined.

Lemma natural_exit_returns_to_idle_witness :
  let w' := App.run 4300 "/opt/mcp-hub"
              [App.ProcExit 0%nat; App.ThreadEof 0; App.ThreadWaitDone 0]
              App.running_world in
  App.hub_running (App.app w') = false /\
  App.status_label (App.app w') = "Stopped" /\
  App.hub_process (App.app w') = Some 0%nat.
Proof.
  destruct (natural_exit_returns_to_idle 4300 "/opt/mcp-hub" 0%nat 0%nat
              App.running_world eq_refl eq_refl)
    as (Hrun & _ & _ & Hstatus & _ & Hproc & _).
  split; [exact Hrun|]. split; [exact Hstatus|exact Hproc].
Defined.

Lemma stop_then_reader_reports_error_witness :
  let w' := App.run 4300 "/opt/mcp-hub"
              [App.Click App.stubborn; App.ProcExit 0%nat; App.ThreadEof 0]
              App.running_world in
  App.status_label (App.app w') = "Error" /\
  App.log (App.app w') =
    App.log (App.app App.running_world) ++ [("INFO", "Stopping MCP Hub...")] /\
  App.hub_process (App.app w') = None.
Proof.
  destruct (stop_then_reader_reports_error 4300 "/opt/mcp-hub" App.stubborn 0%nat 0%nat
              App.running_world eq_refl eq_refl eq_refl eq_refl
              (or_intror (or_introl eq_refl)))
    as (Hstatus & Hlog & _ & Hproc & _).
  split; [exact Hstatus|]. split; [exact Hlog|exact Hproc].
Defined.


(** The project root of a file in [/home/u/mcp-hub/src/gui]. *)
Example find_project_root_sample :
  ProjectRoot.find_project_root ProjectRoot.sample_isfile
    ["home"; "u"; "mcp-hub"; "src"; "gui"]
  = ["home"; "u"; "mcp-hub"] /\
  ProjectRoot.find_project_root (fun _ => false) ["home"; "u"; "mcp-hub"; "src"; "gui"]
  = ["home"; "u"; "mcp-hub"; "src"; "gui"].
Proof. split; vm_compute; reflexivity. Qed.

(** A description of 81 characters is cut to 80 and gets three dots; so
    is one of 81 two-byte characters, which is cut after 160 bytes. *)
Example short_description_sample :
  ServersTab.short_description
    "123456789012345678901234567890123456789012345678901234567890123456789012345678901"
  = "12345678901234567890123456789012345678901234567890123456789012345678901234567890..." /\
  ServersTab.py_len
    (ServersTab.short_description
       "ééééééééééééééééééééééééééééééééééééééééééééééééééééééééééééééééééééééééééééééééé")
  = 83%nat /\
  String.length
    (ServersTab.short_description
       "ééééééééééééééééééééééééééééééééééééééééééééééééééééééééééééééééééééééééééééééééé")
  = 163%nat /\
  ServersTab.short_description "ééé" = "ééé".
Proof. vm_compute. repeat split. Qed.
